(** * api_tester.py: the request / measurement / reporting loop

    A shallow embedding of [APITester] (src/api_tester.py) and of [main].

    - Python [int] is [Z]; Python [float] (clock readings, durations, the
      interval) is [Q]: rounding is not modelled, only the arithmetic the
      code performs and the two operations of it that can raise, the
      division by a zero float ([ZeroDivisionError]) and the subtraction of
      [None] from a float ([TypeError]).  A difference of two clock readings
      is zero exactly when the readings are equal, on floats as on [Q].
    - The outside world (clock, HTTP transport, interruption) is an oracle
      [World] indexed by the number of interactions made so far.
    - Code runs in a small state-and-exception monad [M] over [Machine]:
      the instance fields ([self]), the interaction counter and standard
      output. *)

From Stdlib Require Import ZArith QArith List String Ascii Bool Lia.
Import ListNotations.

(** ** Values *)

(** Exceptions that can travel through the program.  [TransportError] stands
    for any [Exception] raised by the HTTP client library (connection
    refused, timeout, JSON or text decoding failure, ...); [descr] is what
    [str(e)] returns. *)
Inductive pyexn : Type :=
| TransportError (descr : string)
| ZeroDivisionError
| TypeError.

Definition str (e : pyexn) : string :=
  match e with
  | TransportError d => d
  | ZeroDivisionError => "float division by zero"
  | TypeError => "unsupported operand type(s) for -: 'float' and 'NoneType'"
  end.

(** What happens at a point where the program waits or calls out: the call
    returns, it raises an [Exception], or the task is cancelled there
    (the interruption requested by the user, a [BaseException] that
    [except Exception] does not catch). *)
Inductive outcome (A : Type) : Type :=
| Returns (a : A)
| Raises (e : pyexn)
| Cancelled.

Arguments Returns {A} a.
Arguments Raises {A} e.
Arguments Cancelled {A}.

(** Decoded JSON. *)
#[local] Set Warnings "-register-all".
Inductive json : Type :=
| JNull
| JBool (b : bool)
| JNumber (q : Q)
| JString (s : string)
| JArray (items : list json)
| JObject (members : list (string * json)).

(** The response object handed over by [session.get]: its status, and what
    [await response.json()] and [await response.text()] do on it. *)
Record Response : Type := mkResponse {
  resp_status : Z;
  resp_json : outcome json;
  resp_text : outcome string
}.

(** The value stored under ["response"]: parsed JSON or raw text. *)
Inductive body : Type :=
| Parsed (j : json)
| RawText (s : string).

(** The ["status"] entry: the numeric status or the string ["ERROR"]. *)
Inductive status_field : Type :=
| StatusCode (n : Z)
| StatusERROR.

(** The last entry of the dict: ["response"] or ["error"]. *)
Inductive payload : Type :=
| ResponseEntry (b : body)
| ErrorEntry (description : string).

(** The dict returned by [make_request]. *)
Record RequestResult : Type := mkResult {
  timestamp : string;
  status : status_field;
  elapsed : Q;
  entry : payload
}.

(** ** The instance *)

Record APITester : Type := mkAPITester {
  base_url : string;
  interval : Q;
  max_requests : option Z;
  request_count : Z;
  success_count : Z;
  error_count : Z;
  response_times : list Q;
  start_time : option Q
}.

(** [s.rstrip('/')] *)
Fixpoint lstrip_slash (cs : list ascii) : list ascii :=
  match cs with
  | c :: cs' => if Ascii.eqb c "/"%char then lstrip_slash cs' else cs
  | [] => []
  end.

Definition rstrip_slash (s : string) : string :=
  string_of_list_ascii (rev (lstrip_slash (rev (list_ascii_of_string s)))).

(** [APITester.__init__] *)
Definition init (url : string) (ival : Q) (cap : option Z) : APITester :=
  {| base_url := rstrip_slash url;
     interval := ival;
     max_requests := cap;
     request_count := 0;
     success_count := 0;
     error_count := 0;
     response_times := [];
     start_time := None |}.

(** Field updates. *)
Definition set_request_count (n : Z) (t : APITester) : APITester :=
  {| base_url := base_url t; interval := interval t;
     max_requests := max_requests t;
     request_count := n;
     success_count := success_count t; error_count := error_count t;
     response_times := response_times t; start_time := start_time t |}.

Definition set_success_count (n : Z) (t : APITester) : APITester :=
  {| base_url := base_url t; interval := interval t;
     max_requests := max_requests t;
     request_count := request_count t;
     success_count := n; error_count := error_count t;
     response_times := response_times t; start_time := start_time t |}.

Definition set_error_count (n : Z) (t : APITester) : APITester :=
  {| base_url := base_url t; interval := interval t;
     max_requests := max_requests t;
     request_count := request_count t;
     success_count := success_count t; error_count := n;
     response_times := response_times t; start_time := start_time t |}.

Definition set_response_times (l : list Q) (t : APITester) : APITester :=
  {| base_url := base_url t; interval := interval t;
     max_requests := max_requests t;
     request_count := request_count t;
     success_count := success_count t; error_count := error_count t;
     response_times := l; start_time := start_time t |}.

Definition set_start_time (o : option Q) (t : APITester) : APITester :=
  {| base_url := base_url t; interval := interval t;
     max_requests := max_requests t;
     request_count := request_count t;
     success_count := success_count t; error_count := error_count t;
     response_times := response_times t; start_time := o |}.

(** ** Standard output *)

Inductive Output : Type :=
| StartingLine (url : string)
| IntervalLine (ival : Q)
| WillMakeLine (n : Z)
| CtrlCLine
| RequestLine (n : Z) (st : status_field) (el : Q) (ts : string)
| StatsBlock (total successful errors : Z) (avg mx mn rps : Q)
| InterruptedLine.

(** ** The world and the machine *)

(** The [k]-th interaction with the outside asks one of these oracles at
    index [k]. *)
Record World : Type := mkWorld {
  clock : nat -> Q;                       (* time.time() *)
  isoformat : nat -> string;              (* datetime.now().isoformat() *)
  transport : nat -> outcome Response;    (* await session.get(url) *)
  sleep_cancelled : nat -> bool           (* await asyncio.sleep(interval) *)
}.

Record Machine : Type := mkMachine {
  self : APITester;
  tick : nat;
  stdout : list Output
}.

Definition M (A : Type) : Type := Machine -> outcome A * Machine.

Definition ret {A} (a : A) : M A := fun m => (Returns a, m).

Definition bind {A B} (c : M A) (k : A -> M B) : M B :=
  fun m =>
    match c m with
    | (Returns a, m') => k a m'
    | (Raises e, m') => (Raises e, m')
    | (Cancelled, m') => (Cancelled, m')
    end.

Declare Scope py_scope.
Delimit Scope py_scope with py.
Notation "x <- c ;; k" := (bind c (fun x => k))
  (at level 61, c at next level, right associativity) : py_scope.
Notation "c ;;; k" := (bind c (fun _ => k))
  (at level 61, right associativity) : py_scope.
Open Scope py_scope.

Definition raise {A} (e : pyexn) : M A := fun m => (Raises e, m).

(** [try: body except Exception as e: handler(e)].  A cancellation is not an
    [Exception] and passes through. *)
Definition try_except {A} (body : M A) (handler : pyexn -> M A) : M A :=
  fun m =>
    match body m with
    | (Raises e, m') => handler e m'
    | r => r
    end.

Definition get_self : M APITester := fun m => (Returns (self m), m).

Definition modify_self (f : APITester -> APITester) : M unit :=
  fun m => (Returns tt, {| self := f (self m); tick := tick m; stdout := stdout m |}).

Definition print (o : Output) : M unit :=
  fun m => (Returns tt, {| self := self m; tick := tick m; stdout := stdout m ++ [o] |}).

(** One interaction: read an oracle at the current index and advance it. *)
Definition interact {A} (oracle : nat -> A) : M A :=
  fun m => (Returns (oracle (tick m)),
            {| self := self m; tick := S (tick m); stdout := stdout m |}).

(** Wait for something that may return, raise or be cancelled. *)
Definition await {A} (o : outcome A) : M A := fun m => (o, m).

Definition time_time (w : World) : M Q := interact (clock w).

Definition datetime_now_isoformat (w : World) : M string := interact (isoformat w).

Definition session_get (w : World) : M Response :=
  r <- interact (transport w) ;; await r.

Definition asyncio_sleep (w : World) : M unit :=
  c <- interact (sleep_cancelled w) ;;
  if c then await Cancelled else ret tt.

Definition map_outcome {A B} (f : A -> B) (o : outcome A) : outcome B :=
  match o with
  | Returns a => Returns (f a)
  | Raises e => Raises e
  | Cancelled => Cancelled
  end.

(** ** [APITester.make_request] *)

Definition make_request (w : World) : M RequestResult :=
  start <- time_time w ;;
  try_except
    (response <- session_get w ;;
     now <- time_time w ;;
     let el := (now - start)%Q in
     modify_self (fun t => set_response_times (response_times t ++ [el]) t) ;;;
     let st := resp_status response in
     data <- (if (st =? 200)%Z then
                modify_self (fun t => set_success_count (success_count t + 1) t) ;;;
                await (map_outcome Parsed (resp_json response))
              else
                modify_self (fun t => set_error_count (error_count t + 1) t) ;;;
                await (map_outcome RawText (resp_text response))) ;;
     ts <- datetime_now_isoformat w ;;
     ret {| timestamp := ts; status := StatusCode st; elapsed := el;
            entry := ResponseEntry data |})
    (fun e =>
       modify_self (fun t => set_error_count (error_count t + 1) t) ;;;
       now <- time_time w ;;
       let el := (now - start)%Q in
       modify_self (fun t => set_response_times (response_times t ++ [el]) t) ;;;
       ts <- datetime_now_isoformat w ;;
       ret {| timestamp := ts; status := StatusERROR; elapsed := el;
              entry := ErrorEntry (str e) |}).

(** ** [APITester.print_stats] *)

(** [sum(l)], [max(l)] and [min(l)] on floats.  The sum is exact here where
    Python rounds after every addition; [max] and [min] only compare. *)
Definition sum (l : list Q) : Q := fold_left Qplus l 0%Q.

(** One step of [max] and of [min]: the item replaces the current value
    only when it is strictly greater, respectively strictly smaller. *)
Definition Qmax (cur item : Q) : Q := if Qle_bool item cur then cur else item.
Definition Qmin (cur item : Q) : Q := if Qle_bool cur item then cur else item.

Definition max_of (x : Q) (l : list Q) : Q := fold_left Qmax l x.
Definition min_of (x : Q) (l : list Q) : Q := fold_left Qmin l x.

(** [len(l)] *)
Definition len (l : list Q) : Z := Z.of_nat (List.length l).

(** [a / b] on floats: raises when the divisor is zero.  The quotient is
    exact here where Python rounds it. *)
Definition float_div (a b : Q) : M Q :=
  if Qeq_bool b 0 then raise ZeroDivisionError else ret (a / b)%Q.

(** [time.time() - self.start_time]: the clock is read first, and the
    subtraction raises [TypeError] when [start_time] is still [None]. *)
Definition since_start (w : World) : M Q :=
  now <- time_time w ;;
  t <- get_self ;;
  match start_time t with
  | None => raise TypeError
  | Some t0 => ret (now - t0)%Q
  end.

Definition print_stats (w : World) : M unit :=
  t <- get_self ;;
  match response_times t with
  | [] => ret tt
  | x :: xs =>
      avg_response <- float_div (sum (x :: xs)) (inject_Z (len (x :: xs))) ;;
      let max_response := max_of x xs in
      let min_response := min_of x xs in
      el <- since_start w ;;
      requests_per_second <- float_div (inject_Z (request_count t)) el ;;
      print (StatsBlock (request_count t) (success_count t) (error_count t)
                        avg_response max_response min_response
                        requests_per_second)
  end.

(** ** [APITester.run] *)

(** Truth value of [self.max_requests]: [None] and [0] are false. *)
Definition truthy (cap : option Z) : bool :=
  match cap with
  | None => false
  | Some n => negb (n =? 0)%Z
  end.

(** [self.max_requests and self.request_count >= self.max_requests] *)
Definition cap_reached (t : APITester) : bool :=
  match max_requests t with
  | None => false
  | Some n => negb (n =? 0)%Z && (request_count t >=? n)%Z
  end.

(** How the [while True] loop left off within the iterations granted. *)
Inductive loop_end : Type :=
| Broke          (* the [break] was taken *)
| StillRunning.  (* iterations granted are used up, the loop goes on *)

(** The loop body after the [break] test. *)
Definition iteration (w : World) : M unit :=
  modify_self (fun t => set_request_count (request_count t + 1) t) ;;;
  result <- make_request w ;;
  t <- get_self ;;
  print (RequestLine (request_count t) (status result) (elapsed result)
                     (timestamp result)) ;;;
  (if (request_count t mod 10 =? 0)%Z then print_stats w else ret tt) ;;;
  asyncio_sleep w.

Fixpoint loop (w : World) (fuel : nat) : M loop_end :=
  match fuel with
  | O => ret StillRunning
  | S fuel' =>
      t <- get_self ;;
      if cap_reached t then ret Broke
      else iteration w ;;; loop w fuel'
  end.

Definition banner : M unit :=
  t <- get_self ;;
  print (StartingLine (base_url t)) ;;;
  print (IntervalLine (interval t)) ;;;
  (if truthy (max_requests t) then
     match max_requests t with
     | Some n => print (WillMakeLine n)
     | None => ret tt
     end
   else ret tt) ;;;
  print CtrlCLine.

(** [run] up to the loop: the banner, then [self.start_time = time.time()]. *)
Definition startup (w : World) : M unit :=
  banner ;;;
  now <- time_time w ;;
  modify_self (set_start_time (Some now)).

Definition run (w : World) (fuel : nat) : M loop_end :=
  startup w ;;; loop w fuel.

(** ** [main] *)

(** [try: body except KeyboardInterrupt: handler finally: cleanup] *)
Definition try_interrupt_finally {A} (body : M A) (handler : M unit)
    (cleanup : M unit) : M (option A) :=
  fun m =>
    let '(r, m1) :=
      match body m with
      | (Returns a, m') => (Returns (Some a), m')
      | (Raises e, m') => (Raises e, m')
      | (Cancelled, m') =>
          match handler m' with
          | (Returns _, m'') => (Returns None, m'')
          | (Raises e, m'') => (Raises e, m'')
          | (Cancelled, m'') => (Cancelled, m'')
          end
      end in
    match cleanup m1 with
    | (Returns _, m2) => (r, m2)
    | (Raises e, m2) => (Raises e, m2)
    | (Cancelled, m2) => (Cancelled, m2)
    end.

Definition boot (url : string) (ival : Q) (cap : option Z) : Machine :=
  {| self := init url ival cap; tick := 0; stdout := [] |}.

(** While the iterations granted do not exhaust the loop, the program is
    still inside [asyncio.run] and neither the handler nor the [finally]
    clause has run.  Interruption is what [asyncio.run] delivers to the
    task at its waits; a second interruption arriving while the handler or
    the [finally] clause runs is outside this model. *)
Definition main (w : World) (fuel : nat) (url : string) (ival : Q)
    (cap : option Z) : outcome (option loop_end) * Machine :=
  match run w fuel (boot url ival cap) with
  | (Returns StillRunning, m) => (Returns (Some StillRunning), m)
  | (r, m) =>
      try_interrupt_finally (await r) (print InterruptedLine) (print_stats w) m
  end.

(** ** The run as a state machine *)

Inductive phase : Type := NotStarted | Running | Stopped | Exited.

Definition returned {A} (o : outcome A) : bool :=
  match o with
  | Returns _ => true
  | _ => false
  end.

(** One transition per loop iteration; an iteration that is cancelled or
    raises stops the run in the state it had reached.  The run may also be
    stopped before it starts (the session cannot be opened, or the user
    interrupts at once).  [Stopped] is where [main] calls [print_stats] for
    the last time. *)
Inductive step (w : World) : phase * Machine -> phase * Machine -> Prop :=
| step_start m m' :
    startup w m = (Returns tt, m') ->
    step w (NotStarted, m) (Running, m')
| step_no_start m :
    step w (NotStarted, m) (Stopped, m)
| step_iterate m m' :
    cap_reached (self m) = false ->
    iteration w m = (Returns tt, m') ->
    step w (Running, m) (Running, m')
| step_break m :
    cap_reached (self m) = true ->
    step w (Running, m) (Stopped, m)
| step_abort m r m' :
    cap_reached (self m) = false ->
    iteration w m = (r, m') ->
    returned r = false ->
    step w (Running, m) (Stopped, m')
| step_interrupted_notice m u m' :
    print InterruptedLine m = (u, m') ->
    step w (Stopped, m) (Stopped, m')
| step_final_stats m r m' :
    print_stats w m = (r, m') ->
    step w (Stopped, m) (Exited, m').

(** The states a run can be in, from a freshly constructed tester. *)
Inductive reachable (w : World) : phase * Machine -> Prop :=
| reach_boot url ival cap : reachable w (NotStarted, boot url ival cap)
| reach_step c c' : reachable w c -> step w c c' -> reachable w c'.

(** ** Worlds *)

(** Nobody interrupts: no wait is cancelled. *)
Definition uncancelled {A} (o : outcome A) : Prop := o <> Cancelled.

Definition calm (w : World) : Prop :=
  (forall k, uncancelled (transport w k)) /\
  (forall k r, transport w k = Returns r ->
     uncancelled (resp_json r) /\ uncancelled (resp_text r)) /\
  (forall k, sleep_cancelled w k = false).

(** The clock advances between any two readings. *)
Definition ticking (w : World) : Prop :=
  forall i j, (i < j)%nat -> (clock w i < clock w j)%Q.

(** ** Reading standard output *)

Definition is_stats (o : Output) : bool :=
  match o with
  | StatsBlock _ _ _ _ _ _ _ => true
  | _ => false
  end.

(** Request lines and statistics blocks in the order printed: [inl n] for
    the line of request [n], [inr n] for a block whose total is [n]. *)
Definition mark (o : Output) : list (Z + Z) :=
  match o with
  | RequestLine n _ _ _ => [inl n]
  | StatsBlock n _ _ _ _ _ _ => [inr n]
  | _ => []
  end.

Definition skeleton (out : list Output) : list (Z + Z) := flat_map mark out.

(** What a capped run is to print: request [n], then a block when [n] is a
    multiple of 10, for [n] from [k+1] on, [count] times. *)
Fixpoint cadence_from (k : Z) (count : nat) : list (Z + Z) :=
  match count with
  | O => []
  | S count' =>
      let n := (k + 1)%Z in
      (inl n :: if (n mod 10 =? 0)%Z then [inr n] else [])
        ++ cadence_from n count'
  end.

Definition cadence (c : Z) : list (Z + Z) :=
  cadence_from 0 (Z.to_nat c) ++ [inr c].

(** ** Sample worlds *)

Definition ok_response : Response :=
  mkResponse 200 (Returns (JObject [("ok"%string, JBool true)]))
             (Returns "{ok: true}"%string).

(** Status 200 with a page that is not JSON. *)
Definition html_response : Response :=
  mkResponse 200 (Raises (TransportError "Expecting value: line 1 column 1"))
             (Returns "<html>hello</html>"%string).

Definition server_error_response : Response :=
  mkResponse 500 (Raises (TransportError "Expecting value: line 1 column 1"))
             (Returns "Internal Server Error"%string).


Definition seconds (k : nat) : Q := inject_Z (Z.of_nat k).

(** Every request answered with [r], a clock that advances by one second per
    reading, no interruption. *)
Definition serving (r : Response) : World :=
  {| clock := seconds;
     isoformat := fun _ => "2024-01-01T00:00:00"%string;
     transport := fun _ => Returns r;
     sleep_cancelled := fun _ => false |}.

(** Every request refused. *)
Definition refusing : World :=
  {| clock := seconds;
     isoformat := fun _ => "2024-01-01T00:00:00"%string;
     transport := fun _ => Raises (TransportError "Connection refused");
     sleep_cancelled := fun _ => false |}.

(** A clock too coarse to see the run: every reading is the same. *)
Definition frozen : World :=
  {| clock := fun _ => 0%Q;
     isoformat := fun _ => "2024-01-01T00:00:00"%string;
     transport := fun _ => Returns ok_response;
     sleep_cancelled := fun _ => false |}.

(** ** Vocabulary of the properties *)

(** The configuration, the request counter and the start timestamp. *)
Definition same_setup (t t' : APITester) : Prop :=
  base_url t' = base_url t /\ interval t' = interval t /\
  max_requests t' = max_requests t /\
  request_count t' = request_count t /\ start_time t' = start_time t.

(** The block printed from tester [t] when the throughput is [rps]. *)
Definition stats_block (t : APITester) (rps : Q) : list Output :=
  match response_times t with
  | [] => []
  | x :: xs =>
      [StatsBlock (request_count t) (success_count t) (error_count t)
         (sum (x :: xs) / inject_Z (len (x :: xs)))%Q
         (max_of x xs) (min_of x xs) rps]
  end.

(** The run has started: [start_time] holds an earlier clock reading. *)
Definition started (w : World) (m : Machine) : Prop :=
  exists k, (k < tick m)%nat /\ start_time (self m) = Some (clock w k).

(** The request counter after the increment that opens the iteration. *)
Definition counted (m : Machine) : Machine :=
  {| self := set_request_count (request_count (self m) + 1) (self m);
     tick := tick m; stdout := stdout m |}.

(** The invariant of the run: before the start nothing has been sampled;
    while running the start timestamp is set; and at every point, samples
    imply a start timestamp. *)
Definition start_before_samples (c : phase * Machine) : Prop :=
  let t := self (snd c) in
  (fst c = NotStarted -> response_times t = []) /\
  (fst c = Running -> start_time t <> None) /\
  (response_times t <> [] -> start_time t <> None).

Definition phase_after (o : outcome loop_end) : phase :=
  match o with
  | Returns StillRunning => Running
  | _ => Stopped
  end.

Definition main_phase (o : outcome (option loop_end)) : phase :=
  match o with
  | Returns (Some StillRunning) => Running
  | _ => Exited
  end.

(** A tester whose run has just started at second 0. *)
Definition fresh (cap : option Z) : Machine :=
  {| self := set_start_time (Some (seconds 0)) (init "http://x/" 0 cap);
     tick := 1; stdout := [] |}.

(** A tester one request into a run on the frozen clock. *)
Definition after_one_request : Machine :=
  {| self := {| base_url := "http://x"; interval := 0;
                max_requests := Some 1%Z;
                request_count := 1; success_count := 1; error_count := 0;
                response_times := [0%Q]; start_time := Some 0%Q |};
     tick := 6; stdout := [] |}.

(** The tally of the data model: every request issued is counted once as a
    success or as an error, and has one sample. *)
Definition tally (t : APITester) : Prop :=
  (success_count t + error_count t)%Z = request_count t /\
  len (response_times t) = request_count t.

(** The body of the response is read without an exception, on the path its
    status selects. *)
Definition body_read (r : Response) : Prop :=
  if (resp_status r =? 200)%Z
  then forall e, resp_json r <> Raises e
  else forall e, resp_text r <> Raises e.

(** ** Vocabulary of the further properties *)

Definition is_request (o : Output) : bool :=
  match o with
  | RequestLine _ _ _ _ => true
  | _ => false
  end.

(** The configuration and the start timestamp of two testers agree. *)
Definition same_config (t t' : APITester) : Prop :=
  base_url t' = base_url t /\ interval t' = interval t /\
  max_requests t' = max_requests t /\ start_time t' = start_time t.

(** The books balance: every sample stands for one increment of an outcome
    counter, and both counters are non-negative. *)
Definition balanced (t : APITester) : Prop :=
  (success_count t + error_count t)%Z = len (response_times t) /\
  (0 <= success_count t)%Z /\ (0 <= error_count t)%Z.

(** Between [lo] and [hi] samples for [request_count] requests. *)
Definition samples_between (lo hi : Z) (t : APITester) : Prop :=
  (lo <= len (response_times t) <= hi)%Z.

(** What the run keeps true of the counters: the books balance, and each
    request issued has one or two samples, except that a request still in
    flight when the run stopped has none yet. *)
Definition counters_invariant (c : phase * Machine) : Prop :=
  let t := self (snd c) in
  balanced t /\ (0 <= request_count t)%Z /\
  samples_between (request_count t - 1) (2 * request_count t) t /\
  (fst c = NotStarted \/ fst c = Running ->
   samples_between (request_count t) (2 * request_count t) t).

(** Every request answered with [r], and the user interrupting during the
    wait at interaction [n]. *)
Definition interrupting (r : Response) (n : nat) : World :=
  {| clock := seconds;
     isoformat := fun _ => "2024-01-01T00:00:00"%string;
     transport := fun _ => Returns r;
     sleep_cancelled := fun k => Nat.eqb k n |}.

(** A run served a page it cannot parse: just started, and one request
    later. *)
Definition unparsed_run_started : Machine :=
  Eval vm_compute in
    snd (startup (serving html_response) (boot "http://x/" 0 None)).

Definition unparsed_run_after_one : Machine :=
  Eval vm_compute in
    snd (iteration (serving html_response) unparsed_run_started).

(** The ordinals of the request lines printed, in order. *)
Definition request_numbers (out : list Output) : list Z :=
  flat_map (fun o => match o with
                     | RequestLine n _ _ _ => [n]
                     | _ => []
                     end) out.

(** The lines the loop prints: request lines and statistics blocks. *)
Definition loop_line (o : Output) : bool := is_request o || is_stats o.

(** The banner of a run with these arguments. *)
Definition printed_banner (url : string) (ival : Q) (cap : option Z)
    : list Output :=
  [StartingLine (rstrip_slash url); IntervalLine ival] ++
  match cap with
  | Some n => if (n =? 0)%Z then [] else [WillMakeLine n]
  | None => []
  end ++ [CtrlCLine].

(** The ordinals [first + 1, ..., first + k]. *)
Definition ordinals (first : Z) (k : nat) : list Z :=
  map (fun i => (first + Z.of_nat i)%Z) (seq 1 k).

(** A tester with three samples, and the machine after it has printed its
    statistics. *)
Definition three_samples : Machine :=
  {| self := {| base_url := "http://x"; interval := 0;
                max_requests := None;
                request_count := 3; success_count := 2; error_count := 1;
                response_times := [3 # 10; 1 # 10; 2 # 10]%Q;
                start_time := Some 0%Q |};
     tick := 16; stdout := [] |}.

Definition three_samples_printed : Machine :=
  Eval vm_compute in snd (print_stats (serving ok_response) three_samples).

(** * Properties *)

(** ** [make_request], path by path *)

Ltac run_monad :=
  unfold make_request, print_stats, since_start, float_div, iteration,
    startup, banner, session_get, asyncio_sleep, time_time,
    datetime_now_isoformat, try_except, bind, ret, raise, await, interact,
    get_self, modify_self, print; simpl.

Section MakeRequest.

Variable w : World.
Variable m : Machine.

(** The two durations a call of [make_request] can measure from [m] on. *)
Local Abbreviation el1 := (clock w (2 + tick m) - clock w (tick m))%Q.
Local Abbreviation el2 := (clock w (3 + tick m) - clock w (tick m))%Q.

(** [session.get] raises: the handler alone runs. *)
Lemma make_request_get_raises e :
  transport w (1 + tick m) = Raises e ->
  make_request w m =
    (Returns {| timestamp := isoformat w (3 + tick m);
                status := StatusERROR; elapsed := el1;
                entry := ErrorEntry (str e) |},
     {| self := set_response_times (response_times (self m) ++ [el1])
                  (set_error_count (error_count (self m) + 1) (self m));
        tick := 4 + tick m; stdout := stdout m |}).
Proof.
  intros H. run_monad. simpl in H. rewrite H. reflexivity.
Qed.

(** [session.get] is cancelled. *)
Lemma make_request_get_cancelled :
  transport w (1 + tick m) = Cancelled ->
  make_request w m =
    (Cancelled, {| self := self m; tick := 2 + tick m; stdout := stdout m |}).
Proof.
  intros H. run_monad. simpl in H. rewrite H. reflexivity.
Qed.

Variable r : Response.
Hypothesis Hget : transport w (1 + tick m) = Returns r.

(** Status 200, body parsed. *)
Lemma make_request_200_parsed j :
  resp_status r = 200%Z -> resp_json r = Returns j ->
  make_request w m =
    (Returns {| timestamp := isoformat w (3 + tick m);
                status := StatusCode 200; elapsed := el1;
                entry := ResponseEntry (Parsed j) |},
     {| self := set_success_count (success_count (self m) + 1)
                  (set_response_times (response_times (self m) ++ [el1])
                     (self m));
        tick := 4 + tick m; stdout := stdout m |}).
Proof.
  intros Hs Hj. run_monad. simpl in Hget. rewrite Hget. simpl.
  rewrite Hs, Hj. reflexivity.
Qed.

(** Status 200, [response.json()] raises: the success path has counted and
    sampled already when the handler counts and samples again. *)
Lemma make_request_200_unparsed e :
  resp_status r = 200%Z -> resp_json r = Raises e ->
  make_request w m =
    (Returns {| timestamp := isoformat w (4 + tick m);
                status := StatusERROR; elapsed := el2;
                entry := ErrorEntry (str e) |},
     {| self := set_response_times
                  ((response_times (self m) ++ [el1]) ++ [el2])
                  (set_error_count (error_count (self m) + 1)
                     (set_success_count (success_count (self m) + 1)
                        (set_response_times
                           (response_times (self m) ++ [el1]) (self m))));
        tick := 5 + tick m; stdout := stdout m |}).
Proof.
  intros Hs Hj. run_monad. simpl in Hget. rewrite Hget. simpl.
  rewrite Hs, Hj. reflexivity.
Qed.

Lemma make_request_200_cancelled :
  resp_status r = 200%Z -> resp_json r = Cancelled ->
  make_request w m =
    (Cancelled,
     {| self := set_success_count (success_count (self m) + 1)
                  (set_response_times (response_times (self m) ++ [el1])
                     (self m));
        tick := 3 + tick m; stdout := stdout m |}).
Proof.
  intros Hs Hj. run_monad. simpl in Hget. rewrite Hget. simpl.
  rewrite Hs, Hj. reflexivity.
Qed.

(** Any other status, text read. *)
Lemma make_request_other_text s :
  resp_status r <> 200%Z -> resp_text r = Returns s ->
  make_request w m =
    (Returns {| timestamp := isoformat w (3 + tick m);
                status := StatusCode (resp_status r); elapsed := el1;
                entry := ResponseEntry (RawText s) |},
     {| self := set_error_count (error_count (self m) + 1)
                  (set_response_times (response_times (self m) ++ [el1])
                     (self m));
        tick := 4 + tick m; stdout := stdout m |}).
Proof.
  intros Hs Ht. apply Z.eqb_neq in Hs.
  run_monad. simpl in Hget. rewrite Hget. simpl.
  rewrite Hs, Ht. reflexivity.
Qed.

(** Any other status, [response.text()] raises. *)
Lemma make_request_other_unread e :
  resp_status r <> 200%Z -> resp_text r = Raises e ->
  make_request w m =
    (Returns {| timestamp := isoformat w (4 + tick m);
                status := StatusERROR; elapsed := el2;
                entry := ErrorEntry (str e) |},
     {| self := set_response_times
                  ((response_times (self m) ++ [el1]) ++ [el2])
                  (set_error_count (error_count (self m) + 1 + 1)
                     (set_response_times
                        (response_times (self m) ++ [el1]) (self m)));
        tick := 5 + tick m; stdout := stdout m |}).
Proof.
  intros Hs Ht. apply Z.eqb_neq in Hs.
  run_monad. simpl in Hget. rewrite Hget. simpl.
  rewrite Hs, Ht. reflexivity.
Qed.

Lemma make_request_other_cancelled :
  resp_status r <> 200%Z -> resp_text r = Cancelled ->
  make_request w m =
    (Cancelled,
     {| self := set_error_count (error_count (self m) + 1)
                  (set_response_times (response_times (self m) ++ [el1])
                     (self m));
        tick := 3 + tick m; stdout := stdout m |}).
Proof.
  intros Hs Ht. apply Z.eqb_neq in Hs.
  run_monad. simpl in Hget. rewrite Hget. simpl.
  rewrite Hs, Ht. reflexivity.
Qed.

End MakeRequest.

(** ** What [make_request] never touches *)

(** Whatever the world does, [make_request] never lets an exception out,
    prints nothing, leaves the setup alone, only appends to the samples, and
    has appended at least one when it returns. *)
Lemma make_request_frame w m :
  forall o m', make_request w m = (o, m') ->
    (forall e, o <> Raises e) /\
    stdout m' = stdout m /\
    (tick m < tick m')%nat /\
    same_setup (self m) (self m') /\
    (exists extra, response_times (self m') = response_times (self m) ++ extra
                   /\ (returned o = true -> extra <> [])).
Proof.
  intros o m' E.
  destruct (transport w (1 + tick m)) as [r|e|] eqn:Hget.
  - destruct (Z.eq_dec (resp_status r) 200) as [Hs|Hs].
    + destruct (resp_json r) as [j|e|] eqn:Hj.
      * rewrite (make_request_200_parsed w m r Hget _ Hs Hj) in E.
        inversion E; subst; clear E. simpl.
        repeat split; try discriminate; try lia.
        exists [(clock w (2 + tick m) - clock w (tick m))%Q].
        split; [reflexivity | discriminate].
      * rewrite (make_request_200_unparsed w m r Hget _ Hs Hj) in E.
        inversion E; subst; clear E. simpl.
        repeat split; try discriminate; try lia.
        eexists. rewrite <- app_assoc. split; [reflexivity | discriminate].
      * rewrite (make_request_200_cancelled w m r Hget Hs Hj) in E.
        inversion E; subst; clear E. simpl.
        repeat split; try discriminate; try lia.
        eexists. split; [reflexivity | discriminate].
    + destruct (resp_text r) as [s|e|] eqn:Ht.
      * rewrite (make_request_other_text w m r Hget _ Hs Ht) in E.
        inversion E; subst; clear E. simpl.
        repeat split; try discriminate; try lia.
        eexists. split; [reflexivity | discriminate].
      * rewrite (make_request_other_unread w m r Hget _ Hs Ht) in E.
        inversion E; subst; clear E. simpl.
        repeat split; try discriminate; try lia.
        eexists. rewrite <- app_assoc. split; [reflexivity | discriminate].
      * rewrite (make_request_other_cancelled w m r Hget Hs Ht) in E.
        inversion E; subst; clear E. simpl.
        repeat split; try discriminate; try lia.
        eexists. split; [reflexivity | discriminate].
  - rewrite (make_request_get_raises w m _ Hget) in E.
    inversion E; subst; clear E. simpl.
    repeat split; try discriminate; try lia.
    eexists. split; [reflexivity | discriminate].
  - rewrite (make_request_get_cancelled w m Hget) in E.
    inversion E; subst; clear E. simpl.
    repeat split; try discriminate; try lia.
    exists []. rewrite app_nil_r. split; [reflexivity | discriminate].
Qed.

(** With nobody interrupting, [make_request] returns its record. *)
Lemma make_request_returns w m :
  calm w -> exists res m', make_request w m = (Returns res, m').
Proof.
  intros (Hg & Hb & _).
  destruct (transport w (1 + tick m)) as [r|e|] eqn:Hget.
  - destruct (Hb _ _ Hget) as [Hj Ht].
    destruct (Z.eq_dec (resp_status r) 200) as [Hs|Hs].
    + destruct (resp_json r) as [j|e|] eqn:Ej.
      * rewrite (make_request_200_parsed w m r Hget _ Hs Ej). eauto.
      * rewrite (make_request_200_unparsed w m r Hget _ Hs Ej). eauto.
      * exfalso. apply Hj. reflexivity.
    + destruct (resp_text r) as [s|e|] eqn:Et.
      * rewrite (make_request_other_text w m r Hget _ Hs Et). eauto.
      * rewrite (make_request_other_unread w m r Hget _ Hs Et). eauto.
      * exfalso. apply Ht. reflexivity.
  - rewrite (make_request_get_raises w m _ Hget). eauto.
  - exfalso. apply (Hg (1 + tick m)%nat). exact Hget.
Qed.

(** ** [print_stats] *)

Lemma len_cons_nonzero x xs : Qeq_bool (inject_Z (len (x :: xs))) 0 = false.
Proof. reflexivity. Qed.

(** [print_stats] case by case: its result, and the machine it leaves. *)
Lemma print_stats_cases w m :
  print_stats w m =
    match response_times (self m) with
    | [] => (Returns tt, m)
    | _ :: _ =>
        let m1 := {| self := self m; tick := S (tick m); stdout := stdout m |} in
        match start_time (self m) with
        | None => (Raises TypeError, m1)
        | Some t0 =>
            let el := (clock w (tick m) - t0)%Q in
            if Qeq_bool el 0 then (Raises ZeroDivisionError, m1)
            else (Returns tt,
                  {| self := self m; tick := S (tick m);
                     stdout := stdout m ++
                       stats_block (self m)
                         (inject_Z (request_count (self m)) / el)%Q |})
        end
    end.
Proof.
  unfold print_stats, stats_block, bind, get_self.
  destruct (response_times (self m)) as [|x xs]; [reflexivity|].
  unfold float_div at 1. rewrite len_cons_nonzero.
  unfold since_start, time_time, interact, bind, get_self, ret, raise.
  cbn [self tick stdout].
  destruct (start_time (self m)) as [t0|]; [|reflexivity].
  unfold float_div.
  destruct (Qeq_bool (clock w (tick m) - t0) 0); reflexivity.
Qed.

(** On a clock that advances, a started run with samples prints its block. *)
Lemma print_stats_started w m :
  ticking w -> started w m -> response_times (self m) <> [] ->
  exists avg mx mn rps,
    print_stats w m =
      (Returns tt,
       {| self := self m; tick := S (tick m);
          stdout := stdout m ++
            [StatsBlock (request_count (self m)) (success_count (self m))
                        (error_count (self m)) avg mx mn rps] |}).
Proof.
  intros Hc (k & Hk & Hst) Hne.
  rewrite print_stats_cases. unfold stats_block.
  destruct (response_times (self m)) as [|x xs]; [congruence|].
  rewrite Hst. simpl.
  destruct (Qeq_bool (clock w (tick m) - clock w k) 0) eqn:Ez.
  - apply Qeq_bool_iff in Ez. specialize (Hc _ _ Hk).
    exfalso. apply (Qlt_not_eq _ _ Hc). symmetry.
    rewrite <- (Qplus_0_l (clock w k)). rewrite <- Ez. ring.
  - eauto.
Qed.

(** ** One iteration of the loop *)

Lemma skeleton_app a b : skeleton (a ++ b) = skeleton a ++ skeleton b.
Proof. unfold skeleton. apply flat_map_app. Qed.

Lemma asyncio_sleep_calm w m :
  calm w ->
  asyncio_sleep w m =
    (Returns tt, {| self := self m; tick := S (tick m); stdout := stdout m |}).
Proof.
  intros (_ & _ & Hs). unfold asyncio_sleep, bind, interact. simpl.
  rewrite Hs. reflexivity.
Qed.

(** The iteration in terms of the request it makes. *)
Lemma iteration_unfold w m :
  iteration w m =
    match make_request w (counted m) with
    | (Returns res, m1) =>
        let n := request_count (self m1) in
        let m2 := {| self := self m1; tick := tick m1;
                     stdout := stdout m1 ++
                       [RequestLine n (status res) (elapsed res)
                                    (timestamp res)] |} in
        match (if (n mod 10 =? 0)%Z then print_stats w m2
               else (Returns tt, m2)) with
        | (Returns _, m3) => asyncio_sleep w m3
        | (Raises e, m3) => (Raises e, m3)
        | (Cancelled, m3) => (Cancelled, m3)
        end
    | (Raises e, m1) => (Raises e, m1)
    | (Cancelled, m1) => (Cancelled, m1)
    end.
Proof.
  unfold iteration, bind, modify_self, counted. cbn [self tick stdout].
  destruct (make_request w _) as [[res|e|] m1]; try reflexivity.
  unfold get_self, print, ret. cbn [self tick stdout].
  destruct (request_count (self m1) mod 10 =? 0)%Z; reflexivity.
Qed.

(** With nobody interrupting and the clock advancing, an iteration of a
    started run completes: it counts one request, prints its line and, when
    the count is a multiple of 10, one statistics block after it. *)
Lemma iteration_calm w m :
  calm w -> ticking w -> started w m ->
  exists m',
    iteration w m = (Returns tt, m') /\
    started w m' /\
    request_count (self m') = (request_count (self m) + 1)%Z /\
    max_requests (self m') = max_requests (self m) /\
    response_times (self m') <> [] /\
    skeleton (stdout m') =
      skeleton (stdout m) ++
      (let n := (request_count (self m) + 1)%Z in
       inl n :: if (n mod 10 =? 0)%Z then [inr n] else []).
Proof.
  intros Hcalm Hclock (k & Hk & Hst).
  destruct (make_request_returns w (counted m) Hcalm) as (res & m1 & E).
  destruct (make_request_frame w (counted m) _ _ E)
    as (_ & Hout & Htick & (_ & _ & Hcap & Hrc & Hstart) & (extra & Hrt & Hne)).
  simpl in Hout, Htick, Hcap, Hrc, Hstart, Hrt.
  assert (Hsamples : response_times (self m1) <> []).
  { rewrite Hrt. intros Hnil. apply app_eq_nil in Hnil.
    apply Hne; [reflexivity | tauto]. }
  rewrite iteration_unfold, E. cbn zeta. rewrite Hrc.
  destruct ((request_count (self m) + 1) mod 10 =? 0)%Z.
  - match goal with |- context [print_stats w ?m2] =>
      destruct (print_stats_started w m2 Hclock) as (avg & mx & mn & rps & Ep)
    end.
    + exists k. simpl. split; [lia | congruence].
    + exact Hsamples.
    + rewrite Ep, asyncio_sleep_calm by assumption. simpl.
      eexists. split; [reflexivity|]. simpl.
      repeat split; try assumption.
      * exists k. simpl. split; [lia | congruence].
      * rewrite Hout, <- app_assoc, skeleton_app, Hrc. reflexivity.
  - rewrite asyncio_sleep_calm by assumption. simpl.
    eexists. split; [reflexivity|]. simpl.
    repeat split; try assumption.
    + exists k. simpl. split; [lia | congruence].
    + rewrite Hout, skeleton_app. reflexivity.
Qed.

(** ** The loop *)

Lemma cap_reached_untruthy t :
  truthy (max_requests t) = false -> cap_reached t = false.
Proof.
  unfold truthy, cap_reached. destruct (max_requests t) as [n|]; [|reflexivity].
  intros ->. reflexivity.
Qed.

Lemma cadence_from_succ k n :
  cadence_from k (S n) =
    (inl (k + 1)%Z :: if ((k + 1) mod 10 =? 0)%Z then [inr (k + 1)%Z] else [])
      ++ cadence_from (k + 1) n.
Proof. reflexivity. Qed.

(** A cap [c] other than zero, not yet exceeded: the loop runs until the
    counter is [c] and breaks, given as many iterations. *)
Lemma loop_capped w :
  calm w -> ticking w ->
  forall fuel m c,
    max_requests (self m) = Some c -> c <> 0%Z ->
    started w m ->
    (request_count (self m) <= c)%Z ->
    (Z.to_nat (c - request_count (self m)) < fuel)%nat ->
    exists m',
      loop w fuel m = (Returns Broke, m') /\
      request_count (self m') = c /\
      started w m' /\
      ((request_count (self m) < c)%Z \/ response_times (self m) <> [] ->
       response_times (self m') <> []) /\
      skeleton (stdout m') =
        skeleton (stdout m) ++
        cadence_from (request_count (self m))
                     (Z.to_nat (c - request_count (self m))).
Proof.
  intros Hcalm Hclock. induction fuel as [|fuel IH]; intros m c Hcap Hc Hst Hle Hfuel.
  - lia.
  - simpl. unfold bind at 1, get_self at 1. unfold cap_reached. rewrite Hcap.
    apply Z.eqb_neq in Hc. rewrite Hc. simpl.
    destruct (request_count (self m) >=? c)%Z eqn:Ege.
    + apply Z.geb_le in Ege.
      assert (Heq : request_count (self m) = c) by lia.
      exists m. unfold ret. rewrite Heq, Z.sub_diag. simpl. rewrite app_nil_r.
      repeat split; try assumption. intros [?|?]; [lia | assumption].
    + assert (Hlt : (request_count (self m) < c)%Z).
      { destruct (Z.geb_spec (request_count (self m)) c); [discriminate | lia]. }
      destruct (iteration_calm w m Hcalm Hclock Hst)
        as (m1 & Eit & Hst1 & Hrc1 & Hcap1 & Hne1 & Hsk1).
      unfold bind. rewrite Eit.
      destruct (IH m1 c) as (m' & El & Hrc' & Hst' & Hne' & Hsk');
        try assumption; try congruence; try lia.
      exists m'. rewrite El. repeat split; try assumption.
      * intros _. apply Hne'. right. exact Hne1.
      * rewrite Hsk', Hsk1, Hrc1, <- app_assoc. f_equal.
        replace (Z.to_nat (c - request_count (self m)))
          with (S (Z.to_nat (c - (request_count (self m) + 1)))) by lia.
        rewrite cadence_from_succ. reflexivity.
Qed.

(** No cap, or a cap the test takes for none: the loop never breaks. *)
Lemma loop_uncapped w :
  calm w -> ticking w ->
  forall fuel m,
    truthy (max_requests (self m)) = false ->
    started w m ->
    exists m',
      loop w fuel m = (Returns StillRunning, m') /\
      request_count (self m') = (request_count (self m) + Z.of_nat fuel)%Z.
Proof.
  intros Hcalm Hclock. induction fuel as [|fuel IH]; intros m Hcap Hst.
  - exists m. split; [reflexivity | simpl; lia].
  - simpl. unfold bind at 1, get_self at 1.
    rewrite (cap_reached_untruthy _ Hcap).
    destruct (iteration_calm w m Hcalm Hclock Hst)
      as (m1 & Eit & Hst1 & Hrc1 & Hcap1 & _).
    unfold bind. rewrite Eit.
    destruct (IH m1) as (m' & El & Hrc'); [congruence | assumption |].
    exists m'. split; [exact El | lia].
Qed.

(** ** The whole run *)

Lemma startup_boot w url ival cap :
  exists m,
    startup w (boot url ival cap) = (Returns tt, m) /\
    self m = set_start_time (Some (clock w 0)) (init url ival cap) /\
    tick m = 1%nat /\
    skeleton (stdout m) = [].
Proof.
  unfold startup, banner, boot, bind, get_self, print, time_time, interact,
    modify_self, ret. cbn [self tick stdout].
  destruct cap as [n|]; cbn [init max_requests truthy].
  - destruct (negb (n =? 0)%Z); cbn [self tick stdout];
      eexists; repeat split; reflexivity.
  - eexists; repeat split; reflexivity.
Qed.

(** A run capped at [c >= 1]: exactly [c] requests are made, the loop
    breaks, and the output is the cadence followed by the final block. *)
Lemma main_capped w fuel url ival c :
  calm w -> ticking w -> (1 <= c)%Z -> (Z.to_nat c < fuel)%nat ->
  exists m,
    main w fuel url ival (Some c) = (Returns (Some Broke), m) /\
    request_count (self m) = c /\
    skeleton (stdout m) = cadence c.
Proof.
  intros Hcalm Hclock Hc Hfuel.
  destruct (startup_boot w url ival (Some c)) as (m0 & E0 & Hself & Htick & Hsk0).
  assert (Hst0 : started w m0).
  { exists 0%nat. rewrite Htick, Hself. split; [lia | reflexivity]. }
  destruct (loop_capped w Hcalm Hclock fuel m0 c)
    as (m1 & El & Hrc & Hst1 & Hne & Hsk1);
    try (rewrite Hself; simpl; (reflexivity || lia)); try assumption; try lia.
  destruct (print_stats_started w m1 Hclock Hst1)
    as (avg & mx & mn & rps & Ep).
  { apply Hne. left. rewrite Hself. simpl. lia. }
  unfold main, run, bind. rewrite E0, El.
  unfold try_interrupt_finally, await. rewrite Ep.
  eexists. split; [reflexivity|]. cbn [self stdout]. split; [exact Hrc|].
  rewrite skeleton_app, Hsk1, Hsk0, Hself, Hrc. simpl.
  rewrite Z.sub_0_r. reflexivity.
Qed.

(** A run with no cap, or with cap 0, is still going after any number of
    iterations. *)
Lemma main_uncapped w fuel url ival cap :
  calm w -> ticking w -> truthy cap = false ->
  exists m,
    main w fuel url ival cap = (Returns (Some StillRunning), m) /\
    request_count (self m) = Z.of_nat fuel.
Proof.
  intros Hcalm Hclock Hcap.
  destruct (startup_boot w url ival cap) as (m0 & E0 & Hself & Htick & Hsk0).
  destruct (loop_uncapped w Hcalm Hclock fuel m0) as (m1 & El & Hrc).
  { rewrite Hself. exact Hcap. }
  { exists 0%nat. rewrite Htick, Hself. split; [lia | reflexivity]. }
  unfold main, run, bind. rewrite E0, El.
  exists m1. split; [reflexivity|]. rewrite Hrc, Hself. reflexivity.
Qed.

(** ** What an iteration and the start-up do to the start timestamp *)

Lemma print_stats_keeps_self w m o m' :
  print_stats w m = (o, m') -> self m' = self m.
Proof.
  rewrite print_stats_cases.
  destruct (response_times (self m)); [intros E; inversion E; reflexivity|].
  destruct (start_time (self m)) as [t0|]; cbn zeta.
  - destruct (Qeq_bool _ _); intros E; inversion E; reflexivity.
  - intros E; inversion E; reflexivity.
Qed.

(** [print_stats] raises [TypeError] only on a [None] start timestamp. *)
Lemma print_stats_type_error w m m' :
  print_stats w m = (Raises TypeError, m') -> start_time (self m) = None.
Proof.
  rewrite print_stats_cases.
  destruct (response_times (self m)); [discriminate|].
  destruct (start_time (self m)) as [t0|]; cbn zeta; [|reflexivity].
  destruct (Qeq_bool _ _); discriminate.
Qed.

Lemma asyncio_sleep_keeps_self w m o m' :
  asyncio_sleep w m = (o, m') -> self m' = self m /\ forall e, o <> Raises e.
Proof.
  unfold asyncio_sleep, bind, interact, await, ret. cbn [self tick stdout].
  destruct (sleep_cancelled w (tick m)); intros E; inversion E;
    split; try reflexivity; discriminate.
Qed.

(** However an iteration ends, the start timestamp is the one it began
    with, samples are only appended, and a [TypeError] can only come from a
    start timestamp that was [None] already. *)
Lemma iteration_frame w m o m' :
  iteration w m = (o, m') ->
  start_time (self m') = start_time (self m) /\
  (exists extra, response_times (self m') = response_times (self m) ++ extra) /\
  (o = Raises TypeError -> start_time (self m) = None).
Proof.
  rewrite iteration_unfold.
  destruct (make_request w (counted m)) as [o1 m1] eqn:E.
  destruct (make_request_frame w (counted m) _ _ E)
    as (Hnr & _ & _ & (_ & _ & _ & _ & Hstart) & (extra & Hrt & _)).
  simpl in Hstart, Hrt.
  destruct o1 as [res|e|].
  - cbn zeta.
    match goal with |- context [print_stats w ?m2] => set (mp := m2) end.
    destruct (if (request_count (self m1) mod 10 =? 0)%Z
              then print_stats w mp else (Returns tt, mp)) as [o2 m2] eqn:Ep.
    assert (Hself : self m2 = self m1 /\
                    (o2 = Raises TypeError -> start_time (self m1) = None)).
    { destruct (request_count (self m1) mod 10 =? 0)%Z.
      - split; [exact (print_stats_keeps_self _ _ _ _ Ep)|].
        intros ->. exact (print_stats_type_error _ _ _ Ep).
      - inversion Ep; subst. split; [reflexivity | discriminate]. }
    destruct Hself as [Hself Hte].
    destruct o2 as [u|e|]; intros Eo.
    + destruct (asyncio_sleep_keeps_self _ _ _ _ Eo) as [Hs Hno].
      rewrite Hs, Hself. repeat split; eauto.
      intros ->. exfalso. exact (Hno _ eq_refl).
    + inversion Eo; subst. rewrite Hself. repeat split; eauto.
      intros Ht. rewrite <- Hstart. apply Hte. exact Ht.
    + inversion Eo; subst. rewrite Hself. repeat split; eauto. discriminate.
  - exfalso. exact (Hnr e eq_refl).
  - intros Eo; inversion Eo; subst. repeat split; eauto. discriminate.
Qed.

Lemma startup_sets_start w m o m' :
  startup w m = (o, m') ->
  start_time (self m') <> None /\
  response_times (self m') = response_times (self m).
Proof.
  unfold startup, banner, bind, get_self, print, time_time, interact,
    modify_self, ret. cbn [self tick stdout].
  destruct (truthy (max_requests (self m))); [destruct (max_requests (self m))|];
    cbn [self tick stdout]; intros E; inversion E; simpl; split;
    (discriminate || reflexivity).
Qed.

Lemma reachable_start_before_samples w c :
  reachable w c -> start_before_samples c.
Proof.
  induction 1 as [url ival cap | c c' Hreach IH Hstep].
  - repeat split; simpl; congruence.
  - destruct IH as (Hns & Hrun & Hinv).
    destruct Hstep as [m m' E | m | m m' Hcap E | m Hcap | m r m' Hcap E Hr
                      | m u m' E | m r m' E]; simpl in *.
    + destruct (startup_sets_start _ _ _ _ E) as [Hs _].
      repeat split; simpl; auto; discriminate.
    + specialize (Hns eq_refl).
      repeat split; simpl; try discriminate. congruence.
    + destruct (iteration_frame _ _ _ _ E) as (Hs & _ & _).
      specialize (Hrun eq_refl).
      repeat split; simpl; try discriminate; intros; congruence.
    + repeat split; simpl; try discriminate. auto.
    + destruct (iteration_frame _ _ _ _ E) as (Hs & _ & _).
      specialize (Hrun eq_refl).
      repeat split; simpl; try discriminate; intros; congruence.
    + unfold print in E. inversion E; subst.
      repeat split; simpl; try discriminate. auto.
    + unfold start_before_samples. simpl.
      rewrite (print_stats_keeps_self _ _ _ _ E).
      repeat split; try discriminate. auto.
Qed.

(** ** [main] moves along the state machine *)

Lemma loop_reachable w fuel :
  forall m o m',
    reachable w (Running, m) -> loop w fuel m = (o, m') ->
    reachable w (phase_after o, m').
Proof.
  induction fuel as [|fuel IH]; intros m o m' Hr E.
  - inversion E; subst. exact Hr.
  - simpl in E. unfold bind at 1, get_self at 1 in E.
    destruct (cap_reached (self m)) eqn:Hcap.
    + inversion E; subst. simpl.
      eapply reach_step; [exact Hr | apply step_break; exact Hcap].
    + unfold bind in E.
      destruct (iteration w m) as [[[]|e|] m1] eqn:Eit.
      * apply (IH m1); [|exact E].
        eapply reach_step; [exact Hr | apply step_iterate; assumption].
      * inversion E; subst. simpl.
        eapply reach_step; [exact Hr|].
        eapply step_abort; [exact Hcap | exact Eit | reflexivity].
      * inversion E; subst. simpl.
        eapply reach_step; [exact Hr|].
        eapply step_abort; [exact Hcap | exact Eit | reflexivity].
Qed.

Lemma startup_returns w m : exists m', startup w m = (Returns tt, m').
Proof.
  unfold startup, banner, bind, get_self, print, time_time, interact,
    modify_self, ret. cbn [self tick stdout].
  destruct (truthy (max_requests (self m))); [destruct (max_requests (self m))|];
    cbn [self tick stdout]; eauto.
Qed.

(** Wherever [main] is after the iterations granted, the state machine can
    be there too. *)
Lemma main_reachable w fuel url ival cap :
  reachable w (main_phase (fst (main w fuel url ival cap)),
               snd (main w fuel url ival cap)).
Proof.
  unfold main, run, bind.
  destruct (startup_returns w (boot url ival cap)) as (m0 & E0). rewrite E0.
  assert (H0 : reachable w (Running, m0)).
  { eapply reach_step; [apply reach_boot | apply step_start; exact E0]. }
  destruct (loop w fuel m0) as [o m1] eqn:El.
  pose proof (loop_reachable w fuel m0 _ _ H0 El) as H1.
  destruct o as [[]|e|]; simpl in H1; unfold try_interrupt_finally, await.
  - destruct (print_stats w m1) as [[u|e|] m2] eqn:Ep; simpl;
      (eapply reach_step; [exact H1 | eapply step_final_stats; exact Ep]).
  - simpl. exact H1.
  - destruct (print_stats w m1) as [[u|e'|] m2] eqn:Ep; simpl;
      (eapply reach_step; [exact H1 | eapply step_final_stats; exact Ep]).
  - destruct (print InterruptedLine m1) as [ou m1'] eqn:Ei.
    assert (H2 : reachable w (Stopped, m1')).
    { eapply reach_step; [exact H1 | eapply step_interrupted_notice; exact Ei]. }
    unfold print in Ei. inversion Ei; subst ou. rewrite H4 in *.
    destruct (print_stats w m1') as [[u|e'|] m2] eqn:Ep; simpl;
      (eapply reach_step; [exact H2 | eapply step_final_stats; exact Ep]).
Qed.

(** ** The sample worlds behave *)

Lemma seconds_advance i j : (i < j)%nat -> (seconds i < seconds j)%Q.
Proof.
  intros H. unfold seconds. rewrite <- Zlt_Qlt. lia.
Qed.

Lemma serving_calm r :
  uncancelled (resp_json r) -> uncancelled (resp_text r) -> calm (serving r).
Proof.
  intros Hj Ht. repeat split; simpl.
  - discriminate.
  - inversion H; subst. exact Hj.
  - inversion H; subst. exact Ht.
Qed.

Lemma serving_ticking r : ticking (serving r).
Proof. intros i j H. apply seconds_advance. exact H. Qed.

Lemma refusing_calm : calm refusing.
Proof. repeat split; simpl; discriminate. Qed.

Lemma fresh_started r cap : started (serving r) (fresh cap).
Proof. exists 0%nat. split; [simpl; lia | reflexivity]. Qed.

(** ** Standard output only grows *)

Lemma print_stats_stdout w m o m' :
  print_stats w m = (o, m') -> exists more, stdout m' = stdout m ++ more.
Proof.
  rewrite print_stats_cases.
  destruct (response_times (self m)).
  - intros E; inversion E; subst. exists []. symmetry. apply app_nil_r.
  - destruct (start_time (self m)) as [t0|]; cbn zeta.
    + destruct (Qeq_bool _ _); intros E; inversion E; simpl; eauto.
      exists []. symmetry. apply app_nil_r.
    + intros E; inversion E; simpl. exists []. symmetry. apply app_nil_r.
Qed.

Lemma asyncio_sleep_stdout w m o m' :
  asyncio_sleep w m = (o, m') -> stdout m' = stdout m.
Proof.
  unfold asyncio_sleep, bind, interact, await, ret. cbn [self tick stdout].
  destruct (sleep_cancelled w (tick m)); intros E; inversion E; reflexivity.
Qed.

(** When [make_request] returns, the line of the request is printed, however
    the iteration ends afterwards. *)
Lemma iteration_prints_line w m res m1 :
  make_request w (counted m) = (Returns res, m1) ->
  In (RequestLine (request_count (self m1)) (status res) (elapsed res)
                  (timestamp res))
     (stdout (snd (iteration w m))).
Proof.
  intros E. rewrite iteration_unfold, E. cbn zeta.
  match goal with |- context [print_stats w ?m2] => set (mp := m2) end.
  assert (Hin : forall more,
            In (RequestLine (request_count (self m1)) (status res)
                            (elapsed res) (timestamp res))
               (stdout mp ++ more)).
  { intros more. apply in_or_app. left. apply in_or_app. right. left.
    reflexivity. }
  destruct (if (request_count (self m1) mod 10 =? 0)%Z
            then print_stats w mp else (Returns tt, mp)) as [o2 m2] eqn:Ep.
  assert (Hout : exists more, stdout m2 = stdout mp ++ more).
  { destruct (request_count (self m1) mod 10 =? 0)%Z.
    - exact (print_stats_stdout _ _ _ _ Ep).
    - inversion Ep; subst. exists []. symmetry. apply app_nil_r. }
  destruct Hout as (more & Hout).
  destruct o2 as [u|e|]; simpl.
  - destruct (asyncio_sleep w m2) as [o3 m3] eqn:Es. simpl.
    rewrite (asyncio_sleep_stdout _ _ _ _ Es), Hout. apply Hin.
  - rewrite Hout. apply Hin.
  - rewrite Hout. apply Hin.
Qed.

(** An iteration that completes leaves the fields as [make_request] left
    them. *)
Lemma iteration_self w m m' :
  iteration w m = (Returns tt, m') ->
  self m' = self (snd (make_request w (counted m))).
Proof.
  rewrite iteration_unfold.
  destruct (make_request w (counted m)) as [[res|e|] m1]; try discriminate.
  cbn zeta. simpl snd.
  match goal with |- context [print_stats w ?m2] => set (mp := m2) end.
  destruct (if (request_count (self m1) mod 10 =? 0)%Z
            then print_stats w mp else (Returns tt, mp)) as [o2 m2] eqn:Ep.
  assert (Hself : self m2 = self m1).
  { destruct (request_count (self m1) mod 10 =? 0)%Z.
    - exact (print_stats_keeps_self _ _ _ _ Ep).
    - inversion Ep; subst. reflexivity. }
  destruct o2 as [u|e|]; try discriminate.
  intros Es. destruct (asyncio_sleep_keeps_self _ _ _ _ Es) as [Hs _].
  congruence.
Qed.


(** ** The tally, where it holds *)

Lemma len_app_one l x : len (l ++ [x]) = (len l + 1)%Z.
Proof. unfold len. rewrite length_app. simpl. lia. Qed.

(** An iteration that completes keeps the tally when [session.get] raises,
    or when it returns a response whose body is then read without an
    exception. *)
Lemma iteration_keeps_tally w m m' :
  iteration w m = (Returns tt, m') ->
  (forall r, transport w (1 + tick m) = Returns r -> body_read r) ->
  tally (self m) -> tally (self m').
Proof.
  intros Eit Hbody [Hcount Hlen].
  rewrite (iteration_self _ _ _ Eit).
  assert (Hcancel : forall m1, make_request w (counted m) <> (Cancelled, m1)).
  { intros m1 E. rewrite iteration_unfold, E in Eit. discriminate. }
  destruct (transport w (1 + tick m)) as [r|e|] eqn:Hget.
  - specialize (Hbody r eq_refl). unfold body_read in Hbody.
    destruct (Z.eqb_spec (resp_status r) 200) as [Hs|Hs].
    + destruct (resp_json r) as [j|e|] eqn:Hj.
      * rewrite (make_request_200_parsed w (counted m) r Hget j Hs Hj).
        unfold tally. simpl. rewrite len_app_one. lia.
      * exfalso. exact (Hbody e eq_refl).
      * exfalso.
        exact (Hcancel _ (make_request_200_cancelled w (counted m) r Hget Hs Hj)).
    + destruct (resp_text r) as [s|e|] eqn:Ht.
      * rewrite (make_request_other_text w (counted m) r Hget s Hs Ht).
        unfold tally. simpl. rewrite len_app_one. lia.
      * exfalso. exact (Hbody e eq_refl).
      * exfalso.
        exact (Hcancel _ (make_request_other_cancelled w (counted m) r Hget Hs Ht)).
  - rewrite (make_request_get_raises w (counted m) e Hget).
    unfold tally. simpl. rewrite len_app_one. lia.
  - exfalso. exact (Hcancel _ (make_request_get_cancelled w (counted m) Hget)).
Qed.

(** * The claims *)

(** C1.  The tally [success_count + error_count = N = len(response_times)]
    does not survive a response with status 200 whose body cannot be read as
    JSON: the iteration for that one request completes, increments
    [request_count] once, but increments both outcome counters and appends
    two samples. *)
Theorem unparsed_200_counted_twice w m r e :
  calm w -> ticking w -> started w m ->
  transport w (1 + tick m) = Returns r ->
  resp_status r = 200%Z -> resp_json r = Raises e ->
  exists m',
    iteration w m = (Returns tt, m') /\
    request_count (self m') = (request_count (self m) + 1)%Z /\
    success_count (self m') = (success_count (self m) + 1)%Z /\
    error_count (self m') = (error_count (self m) + 1)%Z /\
    List.length (response_times (self m')) =
      (List.length (response_times (self m)) + 2)%nat /\
    (tally (self m) -> ~ tally (self m')).
Proof.
  intros Hcalm Hclock Hst Hget Hs Hj.
  destruct (iteration_calm w m Hcalm Hclock Hst) as (m' & Eit & _).
  exists m'. split; [exact Eit|].
  rewrite (iteration_self _ _ _ Eit).
  rewrite (make_request_200_unparsed w (counted m) r Hget e Hs Hj). simpl.
  repeat split.
  - rewrite !length_app. simpl. lia.
  - unfold tally. simpl. intros [Hc _] [Hc' _]. lia.
Qed.

Lemma unparsed_200_counted_twice_witness :
  exists m',
    iteration (serving html_response) (fresh (Some 1%Z)) = (Returns tt, m') /\
    request_count (self m') = 1%Z /\
    success_count (self m') = 1%Z /\
    error_count (self m') = 1%Z /\
    List.length (response_times (self m')) = 2%nat /\
    (tally (self (fresh (Some 1%Z))) -> ~ tally (self m')).
Proof.
  apply (unparsed_200_counted_twice (serving html_response) (fresh (Some 1%Z))
           html_response (TransportError "Expecting value: line 1 column 1")).
  - apply serving_calm; discriminate.
  - apply serving_ticking.
  - apply fresh_started.
  - reflexivity.
  - reflexivity.
  - reflexivity.
Defined.

(** C2, counterexample: served a page with status 200 that is not JSON,
    the request is not the plain success the claim describes (success
    counter incremented, error counter untouched, a record with status 200
    carrying the raw body): the error counter is incremented and the record
    is the error record. *)
Lemma unparsed_200_is_plain_success_fails :
  transport (serving html_response) (1 + tick (fresh (Some 1%Z))) =
    Returns html_response /\
  resp_status html_response = 200%Z /\
  resp_json html_response =
    Raises (TransportError "Expecting value: line 1 column 1") /\
  ~ (success_count
       (self (snd (make_request (serving html_response) (fresh (Some 1%Z))))) =
       (success_count (self (fresh (Some 1%Z))) + 1)%Z /\
     error_count
       (self (snd (make_request (serving html_response) (fresh (Some 1%Z))))) =
       error_count (self (fresh (Some 1%Z))) /\
     exists ts el raw,
       fst (make_request (serving html_response) (fresh (Some 1%Z))) =
         Returns {| timestamp := ts; status := StatusCode 200; elapsed := el;
                    entry := ResponseEntry (RawText raw) |}).
Proof.
  repeat split.
  intros (_ & Herr & _). vm_compute in Herr. discriminate.
Qed.

(** C2, amended.  For a response with status 200 whose body fails to parse
    ([response.json()] raises [e]), the success counter is incremented, no
    raw body is substituted, and the failure is caught by the handler of the
    request, which returns the error record: status ["ERROR"] with the
    description of [e]. *)
Theorem unparsed_200_caught w m r e :
  transport w (1 + tick m) = Returns r ->
  resp_status r = 200%Z -> resp_json r = Raises e ->
  exists ts el m',
    make_request w m =
      (Returns {| timestamp := ts; status := StatusERROR; elapsed := el;
                  entry := ErrorEntry (str e) |}, m') /\
    success_count (self m') = (success_count (self m) + 1)%Z.
Proof.
  intros Hget Hs Hj.
  rewrite (make_request_200_unparsed w m r Hget e Hs Hj).
  do 3 eexists. split; reflexivity.
Qed.

Lemma unparsed_200_caught_witness :
  exists ts el m',
    make_request (serving html_response) (fresh (Some 1%Z)) =
      (Returns {| timestamp := ts; status := StatusERROR; elapsed := el;
                  entry := ErrorEntry "Expecting value: line 1 column 1" |},
       m') /\
    success_count (self m') = 1%Z.
Proof.
  apply (unparsed_200_caught (serving html_response) (fresh (Some 1%Z))
           html_response (TransportError "Expecting value: line 1 column 1"));
    reflexivity.
Defined.

(** C3.  With [max_requests = 0] the loop does not stop at zero requests:
    the test [self.max_requests and ...] takes 0 for "no cap", so however
    many iterations the run is granted, it makes that many requests and is
    still running. *)
Theorem cap_zero_never_breaks w fuel url ival :
  calm w -> ticking w ->
  exists m,
    main w fuel url ival (Some 0%Z) = (Returns (Some StillRunning), m) /\
    request_count (self m) = Z.of_nat fuel.
Proof.
  intros Hcalm Hclock.
  apply main_uncapped; [assumption | assumption | reflexivity].
Qed.

Lemma cap_zero_never_breaks_witness :
  exists m,
    main (serving ok_response) 3 "http://x/" 0 (Some 0%Z) =
      (Returns (Some StillRunning), m) /\
    request_count (self m) = 3%Z.
Proof.
  apply (cap_zero_never_breaks (serving ok_response) 3 "http://x/" 0).
  - apply serving_calm; discriminate.
  - apply serving_ticking.
Defined.

(** C4.  [print_stats] has no guard on the throughput division: with at
    least one sample and a clock reading equal to the start timestamp, it
    raises [ZeroDivisionError]. *)
Theorem print_stats_zero_elapsed_raises w m t0 :
  response_times (self m) <> [] ->
  start_time (self m) = Some t0 ->
  (clock w (tick m) == t0)%Q ->
  fst (print_stats w m) = Raises ZeroDivisionError.
Proof.
  intros Hne Hst Hz. rewrite print_stats_cases.
  destruct (response_times (self m)); [congruence|].
  rewrite Hst. cbn zeta.
  assert (E : Qeq_bool (clock w (tick m) - t0) 0 = true).
  { apply Qeq_bool_iff. rewrite Hz. ring. }
  rewrite E. reflexivity.
Qed.

Lemma print_stats_zero_elapsed_raises_witness :
  fst (print_stats frozen after_one_request) = Raises ZeroDivisionError.
Proof.
  apply (print_stats_zero_elapsed_raises frozen after_one_request 0%Q).
  - discriminate.
  - reflexivity.
  - reflexivity.
Defined.

(** That state is the one [main] is in when it calls [print_stats] after a
    run of one request on the frozen clock, and the exception is how the
    program ends. *)
Example frozen_run_crashes :
  main frozen 2 "http://x/" 0 (Some 1%Z) =
    (Raises ZeroDivisionError,
     {| self := self after_one_request; tick := 7;
        stdout := [StartingLine "http://x"; IntervalLine 0; WillMakeLine 1;
                   CtrlCLine;
                   RequestLine 1 (StatusCode 200) (0 - 0)
                               "2024-01-01T00:00:00"] |}).
Proof. reflexivity. Qed.

(** C5.  With no sample recorded, [print_stats] is a no-op: it returns
    normally and leaves the whole machine as it was, so no field is changed,
    the clock is not read and nothing is printed. *)
Theorem print_stats_no_samples w m :
  response_times (self m) = [] ->
  print_stats w m = (Returns tt, m).
Proof.
  intros H. rewrite print_stats_cases, H. reflexivity.
Qed.

Lemma print_stats_no_samples_witness :
  print_stats frozen (boot "http://x/" 1 (Some 0%Z)) =
    (Returns tt, boot "http://x/" 1 (Some 0%Z)).
Proof.
  apply (print_stats_no_samples frozen (boot "http://x/" 1 (Some 0%Z))).
  reflexivity.
Defined.




(** C7.  When [session.get] raises [e], [make_request] returns normally with
    the error record (marker ["ERROR"], the description [str(e)], the time
    elapsed up to the failure).  Of the fields of the tester only two have
    changed: the error counter is one higher and that elapsed time is the
    one sample appended; the success counter, the request counter, the
    configuration and the start timestamp are as before, and nothing has
    been printed.  The loop is not aborted: in a started run that nobody
    interrupts, on a clock that advances, the iteration completes, having
    printed the line of the request, and the loop goes on from the state it
    left. *)
Theorem transport_failure_recorded w m e :
  transport w (1 + tick m) = Raises e ->
  let el := (clock w (2 + tick m) - clock w (tick m))%Q in
  let t := self m in
  let m' := snd (make_request w m) in
  let t' := self m' in
  fst (make_request w m) =
    Returns {| timestamp := isoformat w (3 + tick m);
               status := StatusERROR; elapsed := el;
               entry := ErrorEntry (str e) |} /\
  error_count t' = (error_count t + 1)%Z /\
  success_count t' = success_count t /\
  request_count t' = request_count t /\
  response_times t' = response_times t ++ [el] /\
  (base_url t' = base_url t /\ interval t' = interval t /\
   max_requests t' = max_requests t /\ start_time t' = start_time t) /\
  stdout m' = stdout m /\
  (calm w -> ticking w -> started w m -> cap_reached t = false ->
   forall fuel,
   exists m2,
     iteration w m = (Returns tt, m2) /\
     loop w (S fuel) m = loop w fuel m2 /\
     request_count (self m2) = (request_count t + 1)%Z /\
     error_count (self m2) = (error_count t + 1)%Z /\
     success_count (self m2) = success_count t /\
     response_times (self m2) = response_times t ++ [el] /\
     In (RequestLine (request_count t + 1) StatusERROR el
                     (isoformat w (3 + tick m)))
        (stdout m2)).
Proof.
  intros Hget. cbn zeta.
  rewrite (make_request_get_raises w m e Hget). simpl.
  repeat split.
  intros Hcalm Hclock Hst Hcap fuel.
  destruct (iteration_calm w m Hcalm Hclock Hst) as (m2 & Eit & _).
  exists m2. split; [exact Eit|]. split.
  - simpl. unfold bind at 1, get_self at 1. rewrite Hcap.
    unfold bind. rewrite Eit. reflexivity.
  - pose proof (iteration_self w m m2 Eit) as Hself.
    pose proof (iteration_prints_line w m _ _
                  (make_request_get_raises w (counted m) e Hget)) as Hline.
    rewrite Eit in Hline.
    rewrite (make_request_get_raises w (counted m) e Hget) in Hself.
    simpl in Hself, Hline. rewrite Hself. simpl.
    repeat split. exact Hline.
Qed.

Lemma transport_failure_recorded_witness :
  (fst (make_request refusing (fresh (Some 1%Z))) =
     Returns {| timestamp := "2024-01-01T00:00:00"; status := StatusERROR;
                elapsed := seconds 3 - seconds 1;
                entry := ErrorEntry "Connection refused" |} /\
   error_count (self (snd (make_request refusing (fresh (Some 1%Z))))) = 1%Z /\
   success_count (self (snd (make_request refusing (fresh (Some 1%Z))))) = 0%Z /\
   response_times (self (snd (make_request refusing (fresh (Some 1%Z))))) =
     [(seconds 3 - seconds 1)%Q]) /\
  exists m2,
    iteration refusing (fresh (Some 1%Z)) = (Returns tt, m2) /\
    loop refusing 1 (fresh (Some 1%Z)) = loop refusing 0 m2 /\
    request_count (self m2) = 1%Z /\
    error_count (self m2) = 1%Z /\
    success_count (self m2) = 0%Z /\
    response_times (self m2) = [(seconds 3 - seconds 1)%Q] /\
    In (RequestLine 1 StatusERROR (seconds 3 - seconds 1) "2024-01-01T00:00:00")
       (stdout m2).
Proof.
  pose proof (transport_failure_recorded refusing (fresh (Some 1%Z))
                (TransportError "Connection refused") eq_refl) as H.
  cbn zeta in H.
  destruct H as (Hrec & Herr & Hsucc & _ & Hrt & _ & _ & Hloop).
  split.
  - split; [exact Hrec|]. split; [exact Herr|].
    split; [exact Hsucc | exact Hrt].
  - apply (Hloop refusing_calm).
    + intros i j Hij. apply seconds_advance. exact Hij.
    + exists 0%nat. split; [simpl; lia | reflexivity].
    + reflexivity.
Defined.



(** C9.  [print_stats] changes no field of the tester, whichever way it
    ends: counters, samples, start timestamp and configuration are what
    they were. *)
Theorem print_stats_changes_no_field w m :
  self (snd (print_stats w m)) = self m.
Proof.
  destruct (print_stats w m) as [o m'] eqn:E.
  exact (print_stats_keeps_self w m o m' E).
Qed.

(** C10.  In every state the run can reach, samples imply a start
    timestamp; hence [print_stats], called there, never ends in the
    [TypeError] of subtracting [None], and neither does an iteration of the
    running loop, which is where the other calls of [print_stats] are. *)
Theorem start_set_before_samples w c :
  reachable w c ->
  (response_times (self (snd c)) <> [] -> start_time (self (snd c)) <> None) /\
  fst (print_stats w (snd c)) <> Raises TypeError /\
  (fst c = Running -> fst (iteration w (snd c)) <> Raises TypeError).
Proof.
  intros Hr.
  destruct (reachable_start_before_samples w c Hr) as (_ & Hrun & Hinv).
  split; [exact Hinv|]. split.
  - destruct (print_stats w (snd c)) as [o m'] eqn:E. simpl. intros ->.
    pose proof (print_stats_type_error w _ _ E) as Hnone.
    rewrite print_stats_cases in E.
    destruct (response_times (self (snd c))) eqn:Ert; [discriminate|].
    apply Hinv; [discriminate | exact Hnone].
  - intros Hp.
    destruct (iteration w (snd c)) as [o m'] eqn:E. simpl. intros ->.
    destruct (iteration_frame w _ _ _ E) as (_ & _ & Hte).
    exact (Hrun Hp (Hte eq_refl)).
Qed.

(** The run stopped before any request was made. *)
Lemma start_set_before_samples_witness :
  (response_times (self (boot "http://x/" 1 None)) <> [] ->
   start_time (self (boot "http://x/" 1 None)) <> None) /\
  fst (print_stats frozen (boot "http://x/" 1 None)) <> Raises TypeError /\
  (Stopped = Running ->
   fst (iteration frozen (boot "http://x/" 1 None)) <> Raises TypeError).
Proof.
  apply (start_set_before_samples frozen (Stopped, boot "http://x/" 1 None)).
  eapply reach_step.
  - apply reach_boot.
  - apply step_no_start.
Defined.

(** * Further properties *)

(** ** [__init__]: the base URL *)

Lemma lstrip_slash_split cs :
  exists k, cs = repeat "/"%char k ++ lstrip_slash cs.
Proof.
  induction cs as [|c cs IH]; [exists 0%nat; reflexivity|].
  simpl. destruct (Ascii.eqb_spec c "/"%char) as [->|Hc].
  - destruct IH as (k & IH). exists (S k). simpl. rewrite <- IH. reflexivity.
  - exists 0%nat. reflexivity.
Qed.

Lemma lstrip_slash_head cs q : lstrip_slash cs <> "/"%char :: q.
Proof.
  induction cs as [|c cs IH]; [discriminate|].
  simpl. destruct (Ascii.eqb_spec c "/"%char) as [->|Hc]; [exact IH|].
  intros E. inversion E. contradiction.
Qed.

Lemma rev_repeat (c : ascii) k : rev (repeat c k) = repeat c k.
Proof.
  induction k as [|k IH]; [reflexivity|].
  simpl. rewrite IH. clear IH.
  induction k as [|k IH]; [reflexivity|]. simpl. rewrite IH. reflexivity.
Qed.

(** X1.  The base URL a tester is constructed with is the URL given with its
    trailing slashes, and nothing else, removed: the URL is the base URL
    followed by slashes only, and the base URL does not end with a slash. *)
Theorem base_url_stripped url ival cap :
  let b := list_ascii_of_string (base_url (init url ival cap)) in
  (exists k, list_ascii_of_string url = b ++ repeat "/"%char k) /\
  (forall p, b <> p ++ ["/"%char]).
Proof.
  simpl. unfold rstrip_slash. rewrite list_ascii_of_string_of_list_ascii.
  split.
  - destruct (lstrip_slash_split (rev (list_ascii_of_string url))) as (k & Hk).
    exists k. apply (f_equal (@rev ascii)) in Hk.
    rewrite rev_involutive, rev_app_distr, rev_repeat in Hk. exact Hk.
  - intros p E.
    apply (f_equal (@rev ascii)) in E.
    rewrite rev_involutive, rev_app_distr in E. simpl in E.
    exact (lstrip_slash_head _ _ E).
Qed.

(** ** [run]: the cap *)

(** X2.  A negative cap stops the run before the first request, whatever the
    world does: the banner (announcing that cap) is all that is printed, the
    counters stay at zero, and the final [print_stats] prints nothing. *)
Theorem negative_cap_no_request w fuel url ival c :
  (c < 0)%Z -> (0 < fuel)%nat ->
  main w fuel url ival (Some c) =
    (Returns (Some Broke),
     {| self := set_start_time (Some (clock w 0)) (init url ival (Some c));
        tick := 1;
        stdout := [StartingLine (rstrip_slash url); IntervalLine ival;
                   WillMakeLine c; CtrlCLine] |}).
Proof.
  intros Hc Hfuel.
  destruct fuel as [|fuel]; [lia|].
  destruct c as [|c|c]; try lia.
  reflexivity.
Qed.

Lemma negative_cap_no_request_witness :
  main refusing 1 "http://x/" 1 (Some (-5)%Z) =
    (Returns (Some Broke),
     {| self := set_start_time (Some (clock refusing 0))
                  (init "http://x/" 1 (Some (-5)%Z));
        tick := 1;
        stdout := [StartingLine (rstrip_slash "http://x/"); IntervalLine 1;
                   WillMakeLine (-5); CtrlCLine] |}).
Proof.
  apply (negative_cap_no_request refusing 1 "http://x/" 1 (-5)%Z); lia.
Defined.

Lemma request_count_skeleton out :
  List.length (filter is_request out) =
  List.length (filter (fun x => match x with inl _ => true | inr _ => false end)
                      (skeleton out)).
Proof.
  induction out as [|o out IH]; [reflexivity|].
  destruct o; simpl; rewrite ?IH; reflexivity.
Qed.

Lemma cadence_from_requests k n :
  List.length (filter (fun x : Z + Z =>
                         match x with inl _ => true | inr _ => false end)
                      (cadence_from k n)) = n.
Proof.
  revert k. induction n as [|n IH]; intros k; [reflexivity|].
  rewrite cadence_from_succ, filter_app, length_app, IH.
  destruct ((k + 1) mod 10 =? 0)%Z; reflexivity.
Qed.

(** X3.  With a cap [c >= 1], nobody interrupting and the clock advancing,
    the run makes exactly [c] requests, whatever their outcomes, and then
    breaks out of the loop: the counter ends at [c] and [c] request lines
    have been printed. *)
Theorem capped_run_issues_cap w fuel url ival c :
  calm w -> ticking w -> (1 <= c)%Z -> (Z.to_nat c < fuel)%nat ->
  exists m,
    main w fuel url ival (Some c) = (Returns (Some Broke), m) /\
    request_count (self m) = c /\
    List.length (filter is_request (stdout m)) = Z.to_nat c.
Proof.
  intros Hcalm Hclock Hc Hfuel.
  destruct (main_capped w fuel url ival c Hcalm Hclock Hc Hfuel)
    as (m & E & Hrc & Hsk).
  exists m. repeat split; try assumption.
  rewrite request_count_skeleton, Hsk. unfold cadence.
  rewrite filter_app, length_app, cadence_from_requests. simpl. lia.
Qed.

Lemma capped_run_issues_cap_witness :
  exists m,
    main refusing 5 "http://x/" 0 (Some 4%Z) = (Returns (Some Broke), m) /\
    request_count (self m) = 4%Z /\
    List.length (filter is_request (stdout m)) = Z.to_nat 4.
Proof.
  apply (capped_run_issues_cap refusing 5 "http://x/" 0 4%Z).
  - apply refusing_calm.
  - intros i j H. apply seconds_advance. exact H.
  - lia.
  - simpl. lia.
Defined.

(** X4.  With no cap ([max_requests] is [None]) the loop has no exit of its
    own: nobody interrupting and the clock advancing, after any number of
    iterations that many requests have been made and the run is still
    going. *)
Theorem uncapped_run_goes_on w fuel url ival :
  calm w -> ticking w ->
  exists m,
    main w fuel url ival None = (Returns (Some StillRunning), m) /\
    request_count (self m) = Z.of_nat fuel.
Proof.
  intros Hcalm Hclock.
  apply main_uncapped; [assumption | assumption | reflexivity].
Qed.

Lemma uncapped_run_goes_on_witness :
  exists m,
    main (serving server_error_response) 12 "http://x/" 0 None =
      (Returns (Some StillRunning), m) /\
    request_count (self m) = 12%Z.
Proof.
  apply (uncapped_run_goes_on (serving server_error_response) 12 "http://x/" 0).
  - apply serving_calm; discriminate.
  - apply serving_ticking.
Defined.

(** ** The counters *)

(** However an iteration ends, the fields are as [make_request] left
    them: nothing after the request writes to the tester. *)
Lemma iteration_self_any w m o m' :
  iteration w m = (o, m') ->
  self m' = self (snd (make_request w (counted m))).
Proof.
  rewrite iteration_unfold.
  destruct (make_request w (counted m)) as [[res|e|] m1];
    try (intros E; inversion E; reflexivity).
  cbn zeta. simpl snd.
  match goal with |- context [print_stats w ?m2] => set (mp := m2) end.
  destruct (if (request_count (self m1) mod 10 =? 0)%Z
            then print_stats w mp else (Returns tt, mp)) as [o2 m2] eqn:Ep.
  assert (Hself : self m2 = self m1).
  { destruct (request_count (self m1) mod 10 =? 0)%Z.
    - exact (print_stats_keeps_self _ _ _ _ Ep).
    - inversion Ep; subst. reflexivity. }
  destruct o2 as [u|e|]; try (intros E; inversion E; subst; exact Hself).
  intros Es. destruct (asyncio_sleep_keeps_self _ _ _ _ Es) as [Hs _].
  congruence.
Qed.

(** An iteration that returns has had its request return. *)
Lemma iteration_returned w m m' :
  iteration w m = (Returns tt, m') ->
  returned (fst (make_request w (counted m))) = true.
Proof.
  rewrite iteration_unfold.
  destruct (make_request w (counted m)) as [[res|e|] m1];
    [reflexivity | discriminate | discriminate].
Qed.

(** The bookkeeping of one call: [a] increments of the success counter and
    [b] of the error counter come with [a + b] samples, at most two, and at
    least one when the call returns. *)
Lemma make_request_account w m :
  exists a b : Z,
    (0 <= a)%Z /\ (0 <= b)%Z /\ (a + b <= 2)%Z /\
    (returned (fst (make_request w m)) = true -> (1 <= a + b)%Z) /\
    success_count (self (snd (make_request w m))) =
      (success_count (self m) + a)%Z /\
    error_count (self (snd (make_request w m))) =
      (error_count (self m) + b)%Z /\
    len (response_times (self (snd (make_request w m)))) =
      (len (response_times (self m)) + (a + b))%Z /\
    request_count (self (snd (make_request w m))) = request_count (self m).
Proof.
  destruct (transport w (1 + tick m)) as [r|e|] eqn:Hget.
  - destruct (Z.eq_dec (resp_status r) 200) as [Hs|Hs].
    + destruct (resp_json r) as [j|e|] eqn:Hj.
      * rewrite (make_request_200_parsed w m r Hget j Hs Hj).
        exists 1%Z, 0%Z. simpl. rewrite len_app_one. repeat split; lia.
      * rewrite (make_request_200_unparsed w m r Hget e Hs Hj).
        exists 1%Z, 1%Z. simpl. rewrite !len_app_one. repeat split; lia.
      * rewrite (make_request_200_cancelled w m r Hget Hs Hj).
        exists 1%Z, 0%Z. simpl. rewrite len_app_one.
        repeat split; (lia || discriminate).
    + destruct (resp_text r) as [s|e|] eqn:Ht.
      * rewrite (make_request_other_text w m r Hget s Hs Ht).
        exists 0%Z, 1%Z. simpl. rewrite len_app_one. repeat split; lia.
      * rewrite (make_request_other_unread w m r Hget e Hs Ht).
        exists 0%Z, 2%Z. simpl. rewrite !len_app_one. repeat split; lia.
      * rewrite (make_request_other_cancelled w m r Hget Hs Ht).
        exists 0%Z, 1%Z. simpl. rewrite len_app_one.
        repeat split; (lia || discriminate).
  - rewrite (make_request_get_raises w m e Hget).
    exists 0%Z, 1%Z. simpl. rewrite len_app_one. repeat split; lia.
  - rewrite (make_request_get_cancelled w m Hget).
    exists 0%Z, 0%Z. simpl. repeat split; (lia || discriminate).
Qed.

Lemma startup_keeps_counters w m o m' :
  startup w m = (o, m') ->
  request_count (self m') = request_count (self m) /\
  success_count (self m') = success_count (self m) /\
  error_count (self m') = error_count (self m) /\
  response_times (self m') = response_times (self m).
Proof.
  unfold startup, banner, bind, get_self, print, time_time, interact,
    modify_self, ret. cbn [self tick stdout].
  destruct (truthy (max_requests (self m))); [destruct (max_requests (self m))|];
    cbn [self tick stdout]; intros E; inversion E; simpl; repeat split.
Qed.

#[local] Arguments Z.mul : simpl never.

Lemma reachable_counters w c : reachable w c -> counters_invariant c.
Proof.
  induction 1 as [url ival cap | c c' Hreach IH Hstep].
  - unfold counters_invariant, balanced, samples_between, len. simpl.
    repeat split; lia.
  - destruct IH as ((Hbal & Hs & He) & Hrc & Hwide & Htight).
    unfold samples_between in Hwide, Htight.
    destruct Hstep as [m m' E | m | m m' Hcap E | m Hcap | m r m' Hcap E Hr
                      | m u m' E | m r m' E];
      unfold counters_invariant, balanced, samples_between; simpl in *.
    + destruct (startup_keeps_counters _ _ _ _ E) as (-> & -> & -> & ->).
      specialize (Htight (or_introl eq_refl)). repeat split; lia.
    + specialize (Htight (or_introl eq_refl)). repeat split; try lia; try (intros [?|?]; discriminate);
        try (match goal with H : _ \/ _ |- _ => destruct H; discriminate end).
    + specialize (Htight (or_intror eq_refl)).
      rewrite (iteration_self_any _ _ _ _ E).
      pose proof (iteration_returned _ _ _ E) as Hret.
      destruct (make_request_account w (counted m))
        as (a & b & Ha & Hb & Hab & Hone & -> & -> & -> & ->).
      specialize (Hone Hret). simpl. repeat split; lia.
    + specialize (Htight (or_intror eq_refl)). repeat split; try lia; try (intros [?|?]; discriminate);
        try (match goal with H : _ \/ _ |- _ => destruct H; discriminate end).
    + specialize (Htight (or_intror eq_refl)).
      rewrite (iteration_self_any _ _ _ _ E).
      destruct (make_request_account w (counted m))
        as (a & b & Ha & Hb & Hab & _ & -> & -> & -> & ->).
      simpl. repeat split; try lia; try (intros [?|?]; discriminate);
        try (match goal with H : _ \/ _ |- _ => destruct H; discriminate end).
    + unfold print in E. inversion E; subst. simpl.
      repeat split; try lia; try (intros [?|?]; discriminate);
        try (match goal with H : _ \/ _ |- _ => destruct H; discriminate end).
    + rewrite (print_stats_keeps_self _ _ _ _ E).
      repeat split; try lia; try (intros [?|?]; discriminate);
        try (match goal with H : _ \/ _ |- _ => destruct H; discriminate end).
Qed.

(** X5.  In every state the run can reach, the two outcome counters add up
    to the number of samples, none of the counters is negative, and the
    samples number between [request_count - 1] and [2 * request_count];
    between iterations, at least [request_count]. *)
Theorem counters_balance w c :
  reachable w c ->
  let t := self (snd c) in
  (success_count t + error_count t)%Z = len (response_times t) /\
  (0 <= success_count t)%Z /\ (0 <= error_count t)%Z /\
  (0 <= request_count t)%Z /\
  (request_count t - 1 <= len (response_times t) <= 2 * request_count t)%Z /\
  (fst c = Running -> (request_count t <= len (response_times t))%Z).
Proof.
  intros Hr.
  destruct (reachable_counters w c Hr) as ((Hbal & Hs & He) & Hrc & Hwide & Htight).
  unfold samples_between in *. cbn zeta.
  repeat split; try assumption; try lia.
  intros Hp. apply Htight. right. exact Hp.
Qed.

(** One request into a run that is served a page it cannot parse: the books
    balance at two samples for one request. *)
Lemma counters_balance_witness :
  let t := self unparsed_run_after_one in
  (success_count t + error_count t)%Z = len (response_times t) /\
  (0 <= success_count t)%Z /\ (0 <= error_count t)%Z /\
  (0 <= request_count t)%Z /\
  (request_count t - 1 <= len (response_times t) <= 2 * request_count t)%Z /\
  (Running = Running -> (request_count t <= len (response_times t))%Z).
Proof.
  pose proof (counters_balance (serving html_response)
                (Running, unparsed_run_after_one)) as H.
  cbn [fst snd] in H. apply H.
  apply (reach_step (serving html_response)
           (Running, unparsed_run_started) (Running, unparsed_run_after_one)).
  - apply (reach_step (serving html_response)
             (NotStarted, boot "http://x/" 0 None)
             (Running, unparsed_run_started)).
    + apply reach_boot.
    + apply step_start. vm_compute. reflexivity.
  - apply step_iterate; vm_compute; reflexivity.
Defined.

Lemma loop_keeps_tally w :
  (forall k r, transport w k = Returns r -> body_read r) ->
  forall fuel m o m',
    loop w fuel m = (Returns o, m') -> tally (self m) -> tally (self m').
Proof.
  intros Hbody. induction fuel as [|fuel IH]; intros m o m' E Ht.
  - inversion E; subst. exact Ht.
  - simpl in E. unfold bind at 1, get_self at 1 in E.
    destruct (cap_reached (self m)).
    + inversion E; subst. exact Ht.
    + unfold bind in E.
      destruct (iteration w m) as [[[]|e|] m1] eqn:Eit; try discriminate.
      apply (IH m1 o m' E).
      apply (iteration_keeps_tally w m m1 Eit); [|exact Ht].
      intros r Hr. exact (Hbody _ r Hr).
Qed.

(** X6.  Where every response has its body read without an exception, a run
    that has not been interrupted keeps the tally, whatever mix of
    successes, error statuses and failed connections it met: when [main]
    returns, or is still in the loop between two iterations,
    [success_count + error_count = request_count = len(response_times)]. *)
Theorem uninterrupted_run_tally w fuel url ival cap o m :
  (forall k r, transport w k = Returns r -> body_read r) ->
  main w fuel url ival cap = (Returns (Some o), m) ->
  tally (self m).
Proof.
  intros Hbody. unfold main, run, bind.
  destruct (startup_returns w (boot url ival cap)) as (m0 & E0). rewrite E0.
  assert (H0 : tally (self m0)).
  { destruct (startup_keeps_counters _ _ _ _ E0) as (Hrc & Hs & He & Hrt).
    unfold tally. rewrite Hrc, Hs, He, Hrt. split; reflexivity. }
  destruct (loop w fuel m0) as [ol m1] eqn:El.
  destruct ol as [[]|e|].
  - pose proof (loop_keeps_tally w Hbody fuel m0 _ _ El H0) as H1.
    unfold try_interrupt_finally, await.
    destruct (print_stats w m1) as [[u|e|] m2] eqn:Ep; try discriminate.
    intros E; inversion E; subst.
    rewrite (print_stats_keeps_self _ _ _ _ Ep). exact H1.
  - intros E; inversion E; subst.
    exact (loop_keeps_tally w Hbody fuel m0 _ _ El H0).
  - unfold try_interrupt_finally, await.
    destruct (print_stats w m1) as [[u|e'|] m2]; discriminate.
  - unfold try_interrupt_finally, await, print.
    destruct (print_stats w _) as [[u|e'|] m2]; discriminate.
Qed.

Lemma uninterrupted_run_tally_witness :
  tally (self (snd (main (serving server_error_response) 5 "http://x/" 0
                         (Some 3%Z)))).
Proof.
  apply (uninterrupted_run_tally (serving server_error_response) 5 "http://x/"
           0 (Some 3%Z) Broke).
  - intros k r H. inversion H; subst. intros e. discriminate.
  - vm_compute. reflexivity.
Defined.

(** ** [make_request]: failures stay inside *)

(** X7.  [make_request] lets no exception out, whatever raises it and
    wherever ([session.get], [response.json()], [response.text()]); and it
    is cut short only by a cancellation of the wait it is in: the one for
    the response, or the one for the body on the path the status selects. *)
Theorem make_request_contains_failures w m :
  (forall e, fst (make_request w m) <> Raises e) /\
  (fst (make_request w m) = Cancelled <->
   transport w (1 + tick m) = Cancelled \/
   exists r, transport w (1 + tick m) = Returns r /\
             if (resp_status r =? 200)%Z then resp_json r = Cancelled
             else resp_text r = Cancelled).
Proof.
  split.
  - destruct (make_request w m) as [o m'] eqn:E.
    destruct (make_request_frame w m o m' E) as (Hnr & _). exact Hnr.
  - destruct (transport w (1 + tick m)) as [r|e|] eqn:Hget.
    + destruct (Z.eqb_spec (resp_status r) 200) as [Hs|Hs].
      * destruct (resp_json r) as [j|e|] eqn:Hj.
        -- rewrite (make_request_200_parsed w m r Hget j Hs Hj). simpl.
           split; [discriminate|]. intros [H|(r' & Hr & H)]; [discriminate|].
           inversion Hr; subst r'. apply Z.eqb_eq in Hs. rewrite Hs in H.
           congruence.
        -- rewrite (make_request_200_unparsed w m r Hget e Hs Hj). simpl.
           split; [discriminate|]. intros [H|(r' & Hr & H)]; [discriminate|].
           inversion Hr; subst r'. apply Z.eqb_eq in Hs. rewrite Hs in H.
           congruence.
        -- rewrite (make_request_200_cancelled w m r Hget Hs Hj). simpl.
           split; [|reflexivity]. intros _. right. exists r.
           split; [reflexivity|]. apply Z.eqb_eq in Hs. rewrite Hs. exact Hj.
      * destruct (resp_text r) as [s|e|] eqn:Ht.
        -- rewrite (make_request_other_text w m r Hget s Hs Ht). simpl.
           split; [discriminate|]. intros [H|(r' & Hr & H)]; [discriminate|].
           inversion Hr; subst r'. apply Z.eqb_neq in Hs. rewrite Hs in H.
           congruence.
        -- rewrite (make_request_other_unread w m r Hget e Hs Ht). simpl.
           split; [discriminate|]. intros [H|(r' & Hr & H)]; [discriminate|].
           inversion Hr; subst r'. apply Z.eqb_neq in Hs. rewrite Hs in H.
           congruence.
        -- rewrite (make_request_other_cancelled w m r Hget Hs Ht). simpl.
           split; [|reflexivity]. intros _. right. exists r.
           split; [reflexivity|]. apply Z.eqb_neq in Hs. rewrite Hs. exact Ht.
    + rewrite (make_request_get_raises w m e Hget). simpl.
      split; [discriminate|]. intros [H|(r' & Hr & _)]; discriminate.
    + rewrite (make_request_get_cancelled w m Hget). simpl.
      split; [|reflexivity]. intros _. left. reflexivity.
Qed.

(** ** [main]: how the program can end *)







(** ** The configuration stays as constructed *)

Lemma same_config_trans t1 t2 t3 :
  same_config t1 t2 -> same_config t2 t3 -> same_config t1 t3.
Proof.
  unfold same_config. intros (?&?&?&?) (?&?&?&?). repeat split; congruence.
Qed.

Lemma iteration_config w m o m' :
  iteration w m = (o, m') -> same_config (self m) (self m').
Proof.
  intros E. rewrite (iteration_self_any w m o m' E).
  destruct (make_request w (counted m)) as [o1 m1] eqn:E1.
  destruct (make_request_frame w (counted m) _ _ E1)
    as (_ & _ & _ & (Hb & Hi & Hc & _ & Hs) & _).
  simpl in *. repeat split; assumption.
Qed.

Lemma loop_config w fuel :
  forall m o m', loop w fuel m = (o, m') -> same_config (self m) (self m').
Proof.
  induction fuel as [|fuel IH]; intros m o m' E.
  - inversion E; subst. repeat split.
  - simpl in E. unfold bind at 1, get_self at 1 in E.
    destruct (cap_reached (self m)); [inversion E; subst; repeat split|].
    unfold bind in E.
    destruct (iteration w m) as [[[]|e|] m1] eqn:Eit.
    + eapply same_config_trans;
        [exact (iteration_config w m _ _ Eit) | exact (IH m1 o m' E)].
    + inversion E; subst. exact (iteration_config w m _ _ Eit).
    + inversion E; subst. exact (iteration_config w m _ _ Eit).
Qed.

(** X9.  Wherever [main] has got to, the tester still has the configuration
    it was constructed with (the base URL stripped of its trailing slashes,
    the interval, the cap), and its start timestamp is the first reading of
    the clock: nothing in the run writes to them again. *)
Theorem configuration_is_kept w fuel url ival cap :
  let t := self (snd (main w fuel url ival cap)) in
  base_url t = rstrip_slash url /\ interval t = ival /\
  max_requests t = cap /\ start_time t = Some (clock w 0).
Proof.
  cbn zeta. unfold main, run, bind.
  destruct (startup_boot w url ival cap) as (m0 & E0 & Hself & _). rewrite E0.
  destruct (loop w fuel m0) as [o m1] eqn:El.
  pose proof (loop_config w fuel m0 _ _ El) as (Hb & Hi & Hc & Hs).
  rewrite Hself in Hb, Hi, Hc, Hs. simpl in Hb, Hi, Hc, Hs.
  assert (Hfin : forall mm o2 m2,
            self mm = self m1 -> print_stats w mm = (o2, m2) ->
            base_url (self m2) = rstrip_slash url /\ interval (self m2) = ival /\
            max_requests (self m2) = cap /\
            start_time (self m2) = Some (clock w 0)).
  { intros mm o2 m2 Hmm Ep.
    rewrite (print_stats_keeps_self _ _ _ _ Ep), Hmm. repeat split; assumption. }
  destruct o as [[]|e|]; unfold try_interrupt_finally, await, print.
  - destruct (print_stats w m1) as [[u|e|] m2] eqn:Ep; simpl;
      exact (Hfin m1 _ m2 eq_refl Ep).
  - simpl. repeat split; assumption.
  - destruct (print_stats w m1) as [[u|e'|] m2] eqn:Ep; simpl;
      exact (Hfin m1 _ m2 eq_refl Ep).
  - match goal with |- context [print_stats w ?mm] =>
      destruct (print_stats w mm) as [[u|e'|] m2] eqn:Ep; simpl;
        exact (Hfin mm _ m2 eq_refl Ep)
    end.
Qed.

(** ** The figures of a statistics block *)

Lemma Qmax_spec cur item :
  (cur <= Qmax cur item)%Q /\ (item <= Qmax cur item)%Q /\
  (Qmax cur item = cur \/ Qmax cur item = item).
Proof.
  unfold Qmax. destruct (Qle_bool item cur) eqn:E.
  - apply Qle_bool_iff in E. repeat split; auto. apply Qle_refl.
  - assert (H : (cur < item)%Q).
    { apply Qnot_le_lt. intros H. apply Qle_bool_iff in H. congruence. }
    repeat split; auto; [apply Qlt_le_weak; exact H | apply Qle_refl].
Qed.

Lemma Qmin_spec cur item :
  (Qmin cur item <= cur)%Q /\ (Qmin cur item <= item)%Q /\
  (Qmin cur item = cur \/ Qmin cur item = item).
Proof.
  unfold Qmin. destruct (Qle_bool cur item) eqn:E.
  - apply Qle_bool_iff in E. repeat split; auto. apply Qle_refl.
  - assert (H : (item < cur)%Q).
    { apply Qnot_le_lt. intros H. apply Qle_bool_iff in H. congruence. }
    repeat split; auto; [apply Qlt_le_weak; exact H | apply Qle_refl].
Qed.

(** [max(l)] is a member of [l] that no member exceeds. *)
Lemma max_of_spec xs :
  forall x,
    In (max_of x xs) (x :: xs) /\
    forall y, In y (x :: xs) -> (y <= max_of x xs)%Q.
Proof.
  induction xs as [|a xs IH]; intros x.
  - simpl. split; [auto|]. intros y [<-|[]]. apply Qle_refl.
  - unfold max_of. simpl. fold (max_of (Qmax x a) xs).
    destruct (IH (Qmax x a)) as [Hin Hall].
    destruct (Qmax_spec x a) as (Hx & Ha & Hc).
    split.
    + destruct Hin as [Hin|Hin]; [|right; right; exact Hin].
      rewrite <- Hin. destruct Hc as [-> | ->]; [left | right; left]; reflexivity.
    + intros y [<-|[<-|Hy]].
      * eapply Qle_trans; [exact Hx | apply Hall; left; reflexivity].
      * eapply Qle_trans; [exact Ha | apply Hall; left; reflexivity].
      * apply Hall. right. exact Hy.
Qed.

(** [min(l)] is a member of [l] that exceeds no member. *)
Lemma min_of_spec xs :
  forall x,
    In (min_of x xs) (x :: xs) /\
    forall y, In y (x :: xs) -> (min_of x xs <= y)%Q.
Proof.
  induction xs as [|a xs IH]; intros x.
  - simpl. split; [auto|]. intros y [<-|[]]. apply Qle_refl.
  - unfold min_of. simpl. fold (min_of (Qmin x a) xs).
    destruct (IH (Qmin x a)) as [Hin Hall].
    destruct (Qmin_spec x a) as (Hx & Ha & Hc).
    split.
    + destruct Hin as [Hin|Hin]; [|right; right; exact Hin].
      rewrite <- Hin. destruct Hc as [-> | ->]; [left | right; left]; reflexivity.
    + intros y [<-|[<-|Hy]].
      * eapply Qle_trans; [apply Hall; left; reflexivity | exact Hx].
      * eapply Qle_trans; [apply Hall; left; reflexivity | exact Ha].
      * apply Hall. right. exact Hy.
Qed.

(** X10.  The figures of a statistics block: the block [print_stats] prints
    carries the counters as they are, and its minimum and maximum are
    samples of the run that bound every sample from below and from
    above. *)
Theorem stats_block_figures w m m' :
  response_times (self m) <> [] ->
  print_stats w m = (Returns tt, m') ->
  exists avg mx mn rps,
    stdout m' =
      stdout m ++ [StatsBlock (request_count (self m)) (success_count (self m))
                              (error_count (self m)) avg mx mn rps] /\
    In mn (response_times (self m)) /\ In mx (response_times (self m)) /\
    (forall y, In y (response_times (self m)) -> (mn <= y <= mx)%Q).
Proof.
  intros Hne. rewrite print_stats_cases. unfold stats_block.
  destruct (response_times (self m)) as [|x xs] eqn:Ert; [congruence|].
  destruct (start_time (self m)) as [t0|]; cbn zeta; [|discriminate].
  destruct (Qeq_bool _ _); [discriminate|].
  intros E; inversion E; subst m'. simpl.
  destruct (max_of_spec xs x) as [Hmax_in Hmax].
  destruct (min_of_spec xs x) as [Hmin_in Hmin].
  do 4 eexists. split; [reflexivity|].
  split; [exact Hmin_in|]. split; [exact Hmax_in|].
  intros y Hy. split; [apply Hmin | apply Hmax]; exact Hy.
Qed.

Lemma stats_block_figures_witness :
  exists avg mx mn rps,
    stdout three_samples_printed =
      stdout three_samples ++
      [StatsBlock (request_count (self three_samples))
                  (success_count (self three_samples))
                  (error_count (self three_samples)) avg mx mn rps] /\
    In mn (response_times (self three_samples)) /\
    In mx (response_times (self three_samples)) /\
    (forall y, In y (response_times (self three_samples)) ->
               (mn <= y <= mx)%Q).
Proof.
  apply (stats_block_figures (serving ok_response) three_samples
           three_samples_printed).
  - discriminate.
  - vm_compute. reflexivity.
Defined.

(** ** What is printed, and in which order *)

Lemma print_stats_prints_stats w m o m' :
  print_stats w m = (o, m') ->
  exists more,
    stdout m' = stdout m ++ more /\ Forall (fun x => is_stats x = true) more /\
    (more = [] \/
     exists avg mx mn rps,
       more = [StatsBlock (request_count (self m)) (success_count (self m))
                          (error_count (self m)) avg mx mn rps]).
Proof.
  rewrite print_stats_cases. unfold stats_block.
  destruct (response_times (self m)) as [|x xs].
  - intros E; inversion E; subst. exists []. rewrite app_nil_r. auto.
  - destruct (start_time (self m)) as [t0|]; cbn zeta.
    + destruct (Qeq_bool _ _); intros E; inversion E; simpl.
      * exists []. rewrite app_nil_r. auto.
      * eexists. split; [reflexivity|]. split; [repeat constructor|].
        right. do 4 eexists. reflexivity.
    + intros E; inversion E; simpl. exists []. rewrite app_nil_r. auto.
Qed.

(** What one iteration prints: nothing when its request is cancelled, else
    the line of the request under the new ordinal, then at most statistics
    blocks. *)
Lemma iteration_stdout w m o m' :
  iteration w m = (o, m') ->
  request_count (self m') = (request_count (self m) + 1)%Z /\
  ((o = Cancelled /\ stdout m' = stdout m) \/
   exists st el ts more,
     stdout m' =
       stdout m ++ RequestLine (request_count (self m) + 1) st el ts :: more /\
     Forall (fun x => is_stats x = true) more).
Proof.
  intros E. split.
  - rewrite (iteration_self_any w m o m' E).
    destruct (make_request_account w (counted m)) as (a & b & H).
    destruct H as (_ & _ & _ & _ & _ & _ & _ & ->). reflexivity.
  - revert E. rewrite iteration_unfold.
    destruct (make_request w (counted m)) as [o1 m1] eqn:E1.
    destruct (make_request_frame w (counted m) _ _ E1)
      as (Hnr & Hout & _ & (_ & _ & _ & Hrc & _) & _).
    simpl in Hout, Hrc.
    destruct o1 as [res|e1|].
    + cbn zeta.
      match goal with |- context [print_stats w ?m2] => set (mp := m2) end.
      destruct (if (request_count (self m1) mod 10 =? 0)%Z
                then print_stats w mp else (Returns tt, mp)) as [o2 m2] eqn:Ep.
      assert (Hmore : exists more, stdout m2 = stdout mp ++ more /\
                        Forall (fun x => is_stats x = true) more).
      { destruct (request_count (self m1) mod 10 =? 0)%Z.
        - destruct (print_stats_prints_stats w mp _ _ Ep) as (more & H1 & H2 & _).
          eauto.
        - inversion Ep; subst. exists []. rewrite app_nil_r. auto. }
      destruct Hmore as (more & Hm2 & Hstats).
      assert (Hfinal : stdout m2 =
                stdout m ++ RequestLine (request_count (self m) + 1)
                              (status res) (elapsed res) (timestamp res) :: more).
      { rewrite Hm2. unfold mp. simpl. rewrite Hout, Hrc, <- app_assoc.
        reflexivity. }
      intros E. right. exists (status res), (elapsed res), (timestamp res), more.
      split; [|exact Hstats].
      destruct o2 as [u|e2|].
      * rewrite (asyncio_sleep_stdout _ _ _ _ E). exact Hfinal.
      * inversion E; subst. exact Hfinal.
      * inversion E; subst. exact Hfinal.
    + exfalso. exact (Hnr e1 eq_refl).
    + intros E; inversion E; subst. left. split; [reflexivity | exact Hout].
Qed.

Lemma request_numbers_app a b :
  request_numbers (a ++ b) = request_numbers a ++ request_numbers b.
Proof. unfold request_numbers. apply flat_map_app. Qed.

Lemma request_numbers_stats more :
  Forall (fun x => is_stats x = true) more -> request_numbers more = [].
Proof.
  induction 1 as [|o more Ho _ IH]; [reflexivity|].
  destruct o; try discriminate. exact IH.
Qed.

Lemma ordinals_succ first k :
  ordinals first (S k) = (first + 1)%Z :: ordinals (first + 1) k.
Proof.
  unfold ordinals. simpl. f_equal.
  rewrite <- seq_shift, map_map. apply map_ext. intros i. lia.
Qed.

Lemma stats_are_loop_lines more :
  Forall (fun x => is_stats x = true) more ->
  Forall (fun x => loop_line x = true) more.
Proof.
  apply Forall_impl. intros o H. unfold loop_line. rewrite H.
  apply orb_true_r.
Qed.

(** What the loop prints: request lines and statistics blocks only, the
    request lines numbered on from the counter; the counter ends at the last
    ordinal printed, or one above it when that request was cancelled. *)
Lemma loop_stdout w fuel :
  forall m o m',
    loop w fuel m = (o, m') ->
    exists added k,
      stdout m' = stdout m ++ added /\
      Forall (fun x => loop_line x = true) added /\
      request_numbers added = ordinals (request_count (self m)) k /\
      (request_count (self m') = (request_count (self m) + Z.of_nat k)%Z \/
       (request_count (self m') = (request_count (self m) + Z.of_nat k + 1)%Z /\
        o = Cancelled)).
Proof.
  induction fuel as [|fuel IH]; intros m o m' E.
  - inversion E; subst. exists [], 0%nat. rewrite app_nil_r.
    repeat split; auto. left. simpl. lia.
  - simpl in E. unfold bind at 1, get_self at 1 in E.
    destruct (cap_reached (self m)).
    { inversion E; subst. exists [], 0%nat. rewrite app_nil_r.
      repeat split; auto. left. simpl. lia. }
    unfold bind in E.
    destruct (iteration w m) as [o1 m1] eqn:Eit.
    destruct (iteration_stdout w m o1 m1 Eit)
      as (Hrc & [[Hc Hout] | (st & el & ts & more & Hout & Hstats)]).
    + subst o1. inversion E; subst. exists [], 0%nat. rewrite app_nil_r.
      repeat split; auto. right. split; [simpl; lia | reflexivity].
    + assert (Hline : Forall (fun x => loop_line x = true)
                        (RequestLine (request_count (self m) + 1) st el ts
                           :: more)).
      { constructor; [reflexivity | apply stats_are_loop_lines; exact Hstats]. }
      assert (Hnum : request_numbers
                       (RequestLine (request_count (self m) + 1) st el ts
                          :: more) = [(request_count (self m) + 1)%Z]).
      { change (RequestLine (request_count (self m) + 1) st el ts :: more)
          with ([RequestLine (request_count (self m) + 1) st el ts] ++ more).
        rewrite request_numbers_app, (request_numbers_stats more Hstats).
        reflexivity. }
      destruct o1 as [[]|e1|].
      * destruct (IH m1 o m' E) as (added & k & Ho & Hl & Hn & Hcount).
        exists ((RequestLine (request_count (self m) + 1) st el ts :: more)
                  ++ added), (S k).
        rewrite Ho, Hout, <- app_assoc. split; [reflexivity|].
        split; [apply Forall_app; split; assumption|].
        split.
        -- rewrite request_numbers_app, Hnum, Hn, Hrc, ordinals_succ.
           reflexivity.
        -- rewrite Hrc in Hcount. destruct Hcount as [Hk|[Hk Hc]].
           ++ left. lia.
           ++ right. split; [lia | exact Hc].
      * inversion E; subst.
        exists (RequestLine (request_count (self m) + 1) st el ts :: more),
               1%nat.
        repeat split; try assumption. left. lia.
      * inversion E; subst.
        exists (RequestLine (request_count (self m) + 1) st el ts :: more),
               1%nat.
        repeat split; try assumption. left. lia.
Qed.

Lemma startup_boot_stdout w url ival cap :
  exists m,
    startup w (boot url ival cap) = (Returns tt, m) /\
    stdout m = printed_banner url ival cap /\
    request_count (self m) = 0%Z.
Proof.
  unfold startup, banner, boot, bind, get_self, print, time_time, interact,
    modify_self, ret, printed_banner. cbn [self tick stdout].
  destruct cap as [n|]; cbn [init max_requests truthy].
  - destruct (n =? 0)%Z; cbn [negb self tick stdout];
      eexists; repeat split; reflexivity.
  - eexists; repeat split; reflexivity.
Qed.

(** Everything [main] has printed, in order: the banner; the lines of the
    loop, with the request lines numbered from 1; the notice when the run was
    interrupted; the final statistics block, if any. *)
Lemma main_output w fuel url ival cap :
  let o := fst (main w fuel url ival cap) in
  let m := snd (main w fuel url ival cap) in
  exists body k notice final,
    stdout m = printed_banner url ival cap ++ body ++ notice ++ final /\
    Forall (fun x => loop_line x = true) body /\
    request_numbers body = ordinals 0 k /\
    (notice = [] \/ notice = [InterruptedLine]) /\
    (o = Returns None -> notice = [InterruptedLine]) /\
    (forall x, o = Returns (Some x) ->
       notice = [] /\ request_count (self m) = Z.of_nat k) /\
    (request_count (self m) = Z.of_nat k \/
     request_count (self m) = (Z.of_nat k + 1)%Z) /\
    (final = [] \/
     exists avg mx mn rps,
       final = [StatsBlock (request_count (self m)) (success_count (self m))
                           (error_count (self m)) avg mx mn rps]).
Proof.
  cbn zeta. unfold main, run, bind.
  destruct (startup_boot_stdout w url ival cap) as (m0 & E0 & Hban & Hrc0).
  rewrite E0.
  destruct (loop w fuel m0) as [ol m1] eqn:El.
  destruct (loop_stdout w fuel m0 ol m1 El) as (body & k & Hout & Hbody & Hnum & Hk).
  rewrite Hrc0 in Hnum, Hk. rewrite Hban in Hout. simpl in Hk.
  assert (Hfin : forall mm o2 m2,
            self mm = self m1 -> print_stats w mm = (o2, m2) ->
            exists final,
              stdout m2 = stdout mm ++ final /\ self m2 = self m1 /\
              (final = [] \/
               exists avg mx mn rps,
                 final = [StatsBlock (request_count (self m2))
                            (success_count (self m2)) (error_count (self m2))
                            avg mx mn rps])).
  { intros mm o2 m2 Hmm Ep.
    destruct (print_stats_prints_stats w mm o2 m2 Ep) as (final & Hf & _ & Hshape).
    pose proof (print_stats_keeps_self _ _ _ _ Ep) as Hs.
    exists final. rewrite Hs. repeat split; try assumption. }
  destruct ol as [[]|e|]; unfold try_interrupt_finally, await, print.
  - destruct (print_stats w m1) as [o2 m2] eqn:Ep.
    destruct (Hfin m1 o2 m2 eq_refl Ep) as (final & Hf & Hs & Hshape).
    assert (Hcount : request_count (self m2) = Z.of_nat k).
    { rewrite Hs. destruct Hk as [Hk|[_ Hk]]; [exact Hk | discriminate]. }
    exists body, k, [], final.
    destruct o2 as [u|e|]; cbn [fst snd]; rewrite Hf, Hout, <- app_assoc;
      repeat split; auto; try discriminate.
  - cbn [fst snd]. exists body, k, [], [].
    assert (Hcount : request_count (self m1) = Z.of_nat k).
    { destruct Hk as [Hk|[_ Hk]]; [exact Hk | discriminate]. }
    rewrite Hout, !app_nil_r. repeat split; auto; discriminate.
  - destruct (print_stats w m1) as [o2 m2] eqn:Ep.
    destruct (Hfin m1 o2 m2 eq_refl Ep) as (final & Hf & Hs & Hshape).
    assert (Hcount : request_count (self m2) = Z.of_nat k).
    { rewrite Hs. destruct Hk as [Hk|[_ Hk]]; [exact Hk | discriminate]. }
    exists body, k, [], final.
    destruct o2 as [u|e'|]; cbn [fst snd]; rewrite Hf, Hout, <- app_assoc;
      repeat split; auto; try discriminate.
  - match goal with |- context [print_stats w ?mm] =>
      destruct (print_stats w mm) as [o2 m2] eqn:Ep;
      destruct (Hfin mm o2 m2 eq_refl Ep) as (final & Hf & Hs & Hshape)
    end.
    simpl in Hf.
    assert (Hcount : request_count (self m2) = Z.of_nat k \/
                     request_count (self m2) = (Z.of_nat k + 1)%Z).
    { rewrite Hs. destruct Hk as [Hk|[Hk _]]; [left | right]; exact Hk. }
    exists body, k, [InterruptedLine], final.
    destruct o2 as [u|e'|]; cbn [fst snd]; rewrite Hf, Hout, <- !app_assoc;
      repeat split; auto; try discriminate.
Qed.

(** X11.  The output of [main] has one shape, however the run goes: the
    banner, then request lines and statistics blocks only, then the
    interruption notice exactly when the run was interrupted, then at most
    one final statistics block, which carries the final counters.  A run
    that returns without interruption has no notice; an interrupted run that
    returns has it. *)
Theorem main_output_shape w fuel url ival cap :
  let o := fst (main w fuel url ival cap) in
  let m := snd (main w fuel url ival cap) in
  exists body notice final,
    stdout m = printed_banner url ival cap ++ body ++ notice ++ final /\
    Forall (fun x => loop_line x = true) body /\
    (notice = [] \/ notice = [InterruptedLine]) /\
    (o = Returns None -> notice = [InterruptedLine]) /\
    (forall x, o = Returns (Some x) -> notice = []) /\
    (final = [] \/
     exists avg mx mn rps,
       final = [StatsBlock (request_count (self m)) (success_count (self m))
                           (error_count (self m)) avg mx mn rps]).
Proof.
  cbn zeta.
  destruct (main_output w fuel url ival cap)
    as (body & k & notice & final & H1 & H2 & _ & H4 & H5 & H6 & _ & H8).
  exists body, notice, final. repeat split; try assumption.
  intros x Hx. exact (proj1 (H6 x Hx)).
Qed.

Lemma banner_has_no_request url ival cap :
  request_numbers (printed_banner url ival cap) = [].
Proof.
  unfold printed_banner. destruct cap as [n|]; [destruct (n =? 0)%Z|];
    reflexivity.
Qed.

(** X12.  The request lines [main] has printed are numbered 1, 2, ..., [k]
    in that order, with no gap and no repeat; [k] is the request counter,
    or one less than it when the last request was cut short by the
    interruption, which cannot be the case in a run that returns
    uninterrupted. *)
Theorem request_lines_numbered w fuel url ival cap :
  let o := fst (main w fuel url ival cap) in
  let m := snd (main w fuel url ival cap) in
  exists k,
    request_numbers (stdout m) = ordinals 0 k /\
    (request_count (self m) = Z.of_nat k \/
     request_count (self m) = (Z.of_nat k + 1)%Z) /\
    (forall x, o = Returns (Some x) -> request_count (self m) = Z.of_nat k).
Proof.
  cbn zeta.
  destruct (main_output w fuel url ival cap)
    as (body & k & notice & final & H1 & _ & H3 & H4 & _ & H6 & H7 & H8).
  exists k. repeat split; try assumption.
  - rewrite H1, !request_numbers_app, banner_has_no_request, H3.
    assert (Hn : request_numbers notice = []).
    { destruct H4 as [-> | ->]; reflexivity. }
    assert (Hf : request_numbers final = []).
    { destruct H8 as [-> | (avg & mx & mn & rps & ->)]; reflexivity. }
    rewrite Hn, Hf, !app_nil_r. reflexivity.
  - intros x Hx. exact (proj2 (H6 x Hx)).
Qed.

(** An interrupted run: the user interrupts during the pause after the first
    request.  [main] returns, having printed the line of the request, the
    notice and one block counting that request. *)
Example interrupted_after_first_request :
  fst (main (interrupting ok_response 5) 3 "http://x/" 0 None) = Returns None /\
  map is_request
      (stdout (snd (main (interrupting ok_response 5) 3 "http://x/" 0 None))) =
    [false; false; false; true; false; false] /\
  skeleton
    (stdout (snd (main (interrupting ok_response 5) 3 "http://x/" 0 None))) =
    [inl 1%Z; inr 1%Z] /\
  nth_error
    (stdout (snd (main (interrupting ok_response 5) 3 "http://x/" 0 None))) 4 =
    Some InterruptedLine.
Proof. vm_compute. repeat split. Qed.
